(** * pastseason-hk: the normalization and season-bucketing pipeline

    A shallow embedding of [utils.ts] (CSV tokenizer, primitive parsers, row
    decoders, season classifier, FX normalizer, off-season predicate) and of
    the [loadData] effect of [OffSeasonInventoryDashboard.tsx], with the
    properties the specification states about them.

    Conventions of the embedding.
    - A JavaScript string is a [string]: each [ascii] stands for one UTF-16
      code unit below 256.  [null] and [undefined] are [None].
    - A JavaScript [number] holding a monetary amount or a quantity is a
      binary64 [float] (Rocq's primitive floats), with the IEEE operations of
      the kernel.
    - A JavaScript [number] holding a (fiscal or season) year is an integer
      [Z]; [NaN] and [null] are [None].  Integers are exact in binary64 up to
      2^53, and [parseInt] returns the integer the digits spell up to there;
      beyond, it rounds.  A property that rounding would change is stated
      for codes whose year is at most 2^53 ([exactYear]).
    - A [Record<string, string>] is a [gmap string string] holding the own
      properties of the object; a missing key reads as [undefined].  An
      assignment [row[key] = value] goes through [setProperty]: on a plain
      object the key [__proto__] is the accessor of [Object.prototype], whose
      setter ignores a string, so that assignment stores nothing.
    - [fetch] is a function from paths to responses; a failed request and a
      rejected promise are [None]. *)

From Stdlib Require Import ZArith Ascii String Floats.
From stdpp Require Import gmap strings list.

#[local] Set Warnings "-inexact-float".
#[local] Open Scope string_scope.
#[local] Open Scope Z_scope.

(** ** The JavaScript built-ins the source calls *)

Module JS.

(** WhiteSpace and LineTerminator code units below 256: TAB, LF, VT, FF,
    CR, SP and NBSP.  This is the set of [String.prototype.trim] and of the
    regular expression class [\s]. *)
Definition isWhiteSpace (c : ascii) : bool :=
  match c with
  | "009"%char | "010"%char | "011"%char | "012"%char | "013"%char
  | " "%char | "160"%char => true
  | _ => false
  end.

(** The regular expression class [\d]. *)
Definition isDigit (c : ascii) : bool :=
  match c with
  | "0"%char | "1"%char | "2"%char | "3"%char | "4"%char
  | "5"%char | "6"%char | "7"%char | "8"%char | "9"%char => true
  | _ => false
  end.

Definition digitValue (c : ascii) : Z :=
  Z.of_nat (nat_of_ascii c) - 48.

Fixpoint trimStart (s : string) : string :=
  match s with
  | String c r => if isWhiteSpace c then trimStart r else s
  | EmptyString => EmptyString
  end.

Fixpoint trimEnd (s : string) : string :=
  match s with
  | String c r =>
      match trimEnd r with
      | EmptyString => if isWhiteSpace c then EmptyString else String c EmptyString
      | r' => String c r'
      end
  | EmptyString => EmptyString
  end.

Definition trim (s : string) : string := trimEnd (trimStart s).

(** A string is truthy when it is not empty. *)
Definition truthy (s : string) : bool :=
  match s with EmptyString => false | _ => true end.

Definition len (s : string) : Z := Z.of_nat (String.length s).

(** [s.slice(start, end)]; [None] for an omitted [end]. *)
Definition slice (s : string) (start : Z) (end_ : option Z) : string :=
  let n := len s in
  let from := if start <? 0 then Z.max (n + start) 0 else Z.min start n in
  let e := default n end_ in
  let to := if e <? 0 then Z.max (n + e) 0 else Z.min e n in
  String.substring (Z.to_nat from) (Z.to_nat (Z.max (to - from) 0)) s.

(** [s.substring(start, end)] for non-negative arguments. *)
Definition substring (s : string) (start end_ : Z) : string :=
  let n := len s in
  let a := Z.min (Z.max start 0) n in
  let b := Z.min (Z.max end_ 0) n in
  String.substring (Z.to_nat (Z.min a b)) (Z.to_nat (Z.abs (b - a))) s.

Definition startsWith (s : string) (c : ascii) : bool :=
  match s with String d _ => Ascii.eqb d c | EmptyString => false end.

Fixpoint endsWith (s : string) (c : ascii) : bool :=
  match s with
  | String d EmptyString => Ascii.eqb d c
  | String _ r => endsWith r c
  | EmptyString => false
  end.

Fixpoint allDigits (s : string) : bool :=
  match s with
  | String c r => isDigit c && allDigits r
  | EmptyString => true
  end.

(** [/^\d+$/.test(s)]: one digit or more, and nothing else. *)
Definition testDigits (s : string) : bool := truthy s && allDigits s.

(** The longest run of decimal digits at the head of [s], read in base 10
    onto the accumulator, with the number of digits read and the rest. *)
Fixpoint readDigits (acc : Z) (n : nat) (s : string) : Z * nat * string :=
  match s with
  | String c r =>
      if isDigit c then readDigits (10 * acc + digitValue c) (S n) r
      else (acc, n, s)
  | EmptyString => (acc, n, s)
  end.

(** One optional sign at the head of a numeric literal. *)
Definition readSign (s : string) : bool * string :=
  match s with
  | String "-"%char r => (true, r)
  | String "+"%char r => (false, r)
  | _ => (false, s)
  end.

(** [parseInt(s, 10)]: leading white space is skipped, one sign is
    accepted, then the longest run of digits is read; [NaN] when there is
    no digit.  The result is the integer the digits spell, which is the
    number JavaScript returns as long as its magnitude is at most 2^53;
    beyond, JavaScript returns the nearest binary64. *)
Definition parseInt (s : string) : option Z :=
  let t := trimStart s in
  let '(neg, body) := readSign t in
  match readDigits 0 0 body with
  | (_, O, _) => None
  | (v, _, _) => Some (if neg : bool then - v else v)
  end.

(** [isNaN(x)]: NaN is the one number that differs from itself. *)
Definition isNaN (x : float) : bool := negb (PrimFloat.eqb x x).

(** The Number value for [m * 10^e] with [m >= 0], negated when [neg]: the
    nearest binary64, ties to even, as the engines compute it at every
    length of the numeral.  For [e < 0] the quotient [m / 10^-e] is taken
    with enough bits and its remainder's position, then rounded once. *)
Definition roundDecimal (neg : bool) (m e : Z) : float :=
  match m with
  | Z0 => if neg then (-0)%float else 0%float
  | _ =>
      if 0 <=? e then
        SF2Prim (binary_normalize prec emax (cond_Zopp neg (m * 10 ^ e)) 0 false)
      else
        let '(q, e', l) := SFdiv_core_binary prec emax m 0 (10 ^ (- e)) 0 in
        SF2Prim (binary_round_aux prec emax neg q e' l)
  end.

(** ExponentPart: [e] or [E], an optional sign and at least one digit;
    it counts for 0 when it is absent or incomplete. *)
Definition readExponent (s : string) : Z :=
  match s with
  | String ("e" | "E")%char r =>
      let '(neg, r') := readSign r in
      match readDigits 0 0 r' with
      | (_, O, _) => 0
      | (v, _, _) => if neg then - v else v
      end
  | _ => 0
  end.

(** [parseFloat(s)]: leading white space is skipped and the longest prefix
    that is a StrDecimalLiteral is converted; [NaN] when there is none. *)
Definition parseFloat (s : string) : float :=
  let '(neg, body) := readSign (trimStart s) in
  if String.prefix "Infinity" body then
    if neg then neg_infinity else infinity
  else
    let '(ip, n1, r1) := readDigits 0 0 body in
    let '(m, n2, r2) :=
      match r1 with
      | String "."%char r => readDigits ip 0 r
      | _ => (ip, O, r1)
      end in
    match n1, n2 with
    | O, O => nan
    | _, _ => roundDecimal neg m (readExponent r2 - Z.of_nat n2)
    end.

(** [s.replace(/c/g, '')] for a class [c] of single characters, and
    [s.replace(/c+/g, '')] alike: every character of the class goes. *)
Fixpoint removeAll (p : ascii -> bool) (s : string) : string :=
  match s with
  | String c r => if p c then removeAll p r else String c (removeAll p r)
  | EmptyString => EmptyString
  end.

Definition LF : ascii := "010"%char.
Definition CR : ascii := "013"%char.
Definition dquote : ascii := "034"%char.
Definition squote : ascii := "039"%char.
Definition comma : ascii := ","%char.

Definition charString (c : ascii) : string := String c EmptyString.

(** [s.split(/\r?\n/)]: the pieces between line breaks, a line break being
    LF or CR LF; [cur] is the piece being read. *)
Fixpoint splitLinesFrom (cur : string) (s : string) : list string :=
  match s with
  | String c r =>
      if Ascii.eqb c LF then cur :: splitLinesFrom EmptyString r
      else
        match r with
        | String c2 r' =>
            if Ascii.eqb c CR && Ascii.eqb c2 LF
            then cur :: splitLinesFrom EmptyString r'
            else splitLinesFrom (cur ++ charString c) r
        | EmptyString => [cur ++ charString c]
        end
  | EmptyString => [cur]
  end.

Definition splitLines (s : string) : list string := splitLinesFrom EmptyString s.

(** [s.replace(/\r?\n/g, ' ')] *)
Fixpoint replaceLineBreaks (s : string) : string :=
  match s with
  | String c r =>
      if Ascii.eqb c LF then String " " (replaceLineBreaks r)
      else
        match r with
        | String c2 r' =>
            if Ascii.eqb c CR && Ascii.eqb c2 LF
            then String " " (replaceLineBreaks r')
            else String c (replaceLineBreaks r)
        | EmptyString => charString c
        end
  | EmptyString => EmptyString
  end.

End JS.

(** ** types.ts *)

Inductive SourceYearType := PY | CY.

Inductive SeasonType := FW | S_ | ACC | OTHER.

Inductive YearBucket := InSeason | Y1 | Y2 | Y3Plus.

Record SeasonInfo := {
  seasonCode : string;
  seasonType : SeasonType;
  seasonYear : option Z;
  yearBucket : YearBucket;
}.

#[export] Instance SeasonType_eq_dec : EqDecision SeasonType.
Proof. solve_decision. Defined.

#[export] Instance YearBucket_eq_dec : EqDecision YearBucket.
Proof. solve_decision. Defined.

Module InventoryRowRaw.
Record t := mk {
  period : string;
  country : string;
  exRate : float;
  itemCode : string;
  itemDesc1 : string;
  itemDesc2 : option string;
  storeCode : string;
  storeName : string;
  salesDiv : string;
  season : string;
  brand : string;
  brandName : string;
  category : string;
  categoryName : string;
  subcategory : string;
  subcategoryName : string;
  salesQty : float;
  acSalesQty : float;
  stockQty : float;
  netAcPC : float;
  netAcPP : float;
  acSalesCost : float;
  acSalesNetAmount : float;
  acSalesGross : float;
  grossSalesMonth : float;
  netSalesMonth : float;
  cogsMonth : float;
  stockCost : float;
  stockPriceTag : float;
  sourceYearType : SourceYearType;
}.
End InventoryRowRaw.

(** [InventoryRow = InventoryRowRaw & { ... }]: the raw fields and twelve
    more, in one flat object. *)
Module InventoryRow.
Record t := mk {
  period : string;
  country : string;
  exRate : float;
  itemCode : string;
  itemDesc1 : string;
  itemDesc2 : option string;
  storeCode : string;
  storeName : string;
  salesDiv : string;
  season : string;
  brand : string;
  brandName : string;
  category : string;
  categoryName : string;
  subcategory : string;
  subcategoryName : string;
  salesQty : float;
  acSalesQty : float;
  stockQty : float;
  netAcPC : float;
  netAcPP : float;
  acSalesCost : float;
  acSalesNetAmount : float;
  acSalesGross : float;
  grossSalesMonth : float;
  netSalesMonth : float;
  cogsMonth : float;
  stockCost : float;
  stockPriceTag : float;
  sourceYearType : SourceYearType;
  fxRate : float;
  grossSalesFx : float;
  netSalesFx : float;
  stockPriceFx : float;
  stockCostFx : float;
  acSalesGrossFx : float;
  netAcPPFx : float;
  acSalesCostFx : float;
  acSalesNetAmountFx : float;
  cogsFx : float;
  discountRateMonth : option float;
  seasonInfo : SeasonInfo;
}.

(** An [InventoryRow] read at the type [InventoryRowRaw]. *)
Definition toRaw (r : t) : InventoryRowRaw.t :=
  {| InventoryRowRaw.period := period r;
     InventoryRowRaw.country := country r;
     InventoryRowRaw.exRate := exRate r;
     InventoryRowRaw.itemCode := itemCode r;
     InventoryRowRaw.itemDesc1 := itemDesc1 r;
     InventoryRowRaw.itemDesc2 := itemDesc2 r;
     InventoryRowRaw.storeCode := storeCode r;
     InventoryRowRaw.storeName := storeName r;
     InventoryRowRaw.salesDiv := salesDiv r;
     InventoryRowRaw.season := season r;
     InventoryRowRaw.brand := brand r;
     InventoryRowRaw.brandName := brandName r;
     InventoryRowRaw.category := category r;
     InventoryRowRaw.categoryName := categoryName r;
     InventoryRowRaw.subcategory := subcategory r;
     InventoryRowRaw.subcategoryName := subcategoryName r;
     InventoryRowRaw.salesQty := salesQty r;
     InventoryRowRaw.acSalesQty := acSalesQty r;
     InventoryRowRaw.stockQty := stockQty r;
     InventoryRowRaw.netAcPC := netAcPC r;
     InventoryRowRaw.netAcPP := netAcPP r;
     InventoryRowRaw.acSalesCost := acSalesCost r;
     InventoryRowRaw.acSalesNetAmount := acSalesNetAmount r;
     InventoryRowRaw.acSalesGross := acSalesGross r;
     InventoryRowRaw.grossSalesMonth := grossSalesMonth r;
     InventoryRowRaw.netSalesMonth := netSalesMonth r;
     InventoryRowRaw.cogsMonth := cogsMonth r;
     InventoryRowRaw.stockCost := stockCost r;
     InventoryRowRaw.stockPriceTag := stockPriceTag r;
     InventoryRowRaw.sourceYearType := sourceYearType r |}.

(** The nine FX-normalized monetary fields of [r], each paired with the
    field of the raw record [raw] it is computed from. *)
Definition monetary (r : t) (raw : InventoryRowRaw.t) : list (float * float) :=
  [ (grossSalesFx r, InventoryRowRaw.grossSalesMonth raw);
    (netSalesFx r, InventoryRowRaw.netSalesMonth raw);
    (stockPriceFx r, InventoryRowRaw.stockPriceTag raw);
    (stockCostFx r, InventoryRowRaw.stockCost raw);
    (acSalesGrossFx r, InventoryRowRaw.acSalesGross raw);
    (netAcPPFx r, InventoryRowRaw.netAcPP raw);
    (acSalesCostFx r, InventoryRowRaw.acSalesCost raw);
    (acSalesNetAmountFx r, InventoryRowRaw.acSalesNetAmount raw);
    (cogsFx r, InventoryRowRaw.cogsMonth raw) ].
End InventoryRow.

Module GraphDataRowRaw.
Record t := mk {
  Period : string;
  Year : string;
  Season_Code : string;
  Gross_Sales : float;
  Net_Sales : float;
  Stock_Price : float;
  Stock_Cost : float;
  Country : string;
}.

(** [{ ...raw, Year: y }] *)
Definition withYear (raw : t) (y : string) : t :=
  {| Period := Period raw; Year := y; Season_Code := Season_Code raw;
     Gross_Sales := Gross_Sales raw; Net_Sales := Net_Sales raw;
     Stock_Price := Stock_Price raw; Stock_Cost := Stock_Cost raw;
     Country := Country raw |}.
End GraphDataRowRaw.

Module GraphDataRow.
Record t := mk {
  Period : string;
  Year : string;
  Season_Code : string;
  Gross_Sales : float;
  Net_Sales : float;
  Stock_Price : float;
  Stock_Cost : float;
  Country : string;
  period : string;
  year : Z;
  seasonCode : string;
  grossSalesFx : float;
  netSalesFx : float;
  stockPriceFx : float;
  stockCostFx : float;
  country : string;
  seasonInfo : SeasonInfo;
  discountRate : option float;
}.
End GraphDataRow.

(** ** utils.ts: the season classifier *)

Definition parseSeason (seasonCodeRaw : option string) (currentFwYear : Z) : SeasonInfo :=
  let seasonCode := JS.trim (default "" seasonCodeRaw) in
  if negb (JS.truthy seasonCode) then
    {| seasonCode := ""; seasonType := OTHER; seasonYear := None; yearBucket := InSeason |}
  else
    let suffix := JS.slice seasonCode (-1) None in
    let yearPart := JS.slice seasonCode 0 (Some (-1)) in
    let year := if JS.testDigits yearPart then JS.parseInt yearPart else None in
    let seasonType :=
      if String.eqb suffix "F" then FW
      else if String.eqb suffix "S" then S_
      else if String.eqb suffix "N" then ACC
      else OTHER in
    let yearBucket :=
      match seasonType, year with
      | FW, Some year =>
          let diff := currentFwYear - year in
          if diff <=? 0 then InSeason
          else if diff =? 1 then Y1
          else if diff =? 2 then Y2
          else Y3Plus
      | _, _ => InSeason
      end in
    {| seasonCode := seasonCode; seasonType := seasonType;
       seasonYear := year; yearBucket := yearBucket |}.

(** ** utils.ts: the off-season predicate *)

(** [isOffSeasonFW] accepts any object with a [seasonInfo] property. *)
Class HasSeasonInfo (A : Type) := seasonInfoOf : A -> SeasonInfo.

Definition isOffSeasonFW {A} `{HasSeasonInfo A} (row : A) : bool :=
  let info := seasonInfoOf row in
  bool_decide (seasonType info = FW) &&
  (bool_decide (yearBucket info = Y1) || bool_decide (yearBucket info = Y2)
   || bool_decide (yearBucket info = Y3Plus)).

(** The object literal [{ seasonInfo }]. *)
Record SeasonCarrier := { carried : SeasonInfo }.

#[export] Instance SeasonCarrier_has : HasSeasonInfo SeasonCarrier := carried.



#[export] Instance InventoryRow_has : HasSeasonInfo InventoryRow.t :=
  InventoryRow.seasonInfo.

#[export] Instance GraphDataRow_has : HasSeasonInfo GraphDataRow.t :=
  GraphDataRow.seasonInfo.

(** ** utils.ts: the primitive parsers *)

Definition parseNumber (value : option string) : float :=
  match value with
  | None => 0%float
  | Some value =>
      if negb (JS.truthy value) then 0%float
      else
        let cleaned :=
          JS.removeAll JS.isWhiteSpace
            (JS.removeAll (Ascii.eqb ","%char) (JS.trim value)) in
        let parsed := JS.parseFloat cleaned in
        if JS.isNaN parsed then 0%float else parsed
  end.

Definition parseString (value : option string) : string :=
  JS.trim (default "" value).

(** [a || b] on values that are a string or [undefined]: the first truthy
    operand, else the last one. *)
Definition orElse (a b : option string) : option string :=
  match a with
  | Some s => if JS.truthy s then a else b
  | None => b
  end.

(** ** utils.ts: the FX normalizer *)

Definition applyFxNormalization (row : InventoryRowRaw.t) (seasonInfo : SeasonInfo)
  : InventoryRow.t :=
  let country := InventoryRowRaw.country row in
  let fxRate : float :=
    (if String.eqb country "HK" then 1
     else if String.eqb country "MC" then 1.03
     else if String.eqb country "TW" then 4.02
     else 1)%float in
  let applyFx (value : float) : float :=
    if String.eqb country "HK" then value else (value / fxRate)%float in
  let grossSalesFx := applyFx (InventoryRowRaw.grossSalesMonth row) in
  let netSalesFx := applyFx (InventoryRowRaw.netSalesMonth row) in
  let stockPriceFx := applyFx (InventoryRowRaw.stockPriceTag row) in
  let stockCostFx := applyFx (InventoryRowRaw.stockCost row) in
  let acSalesGrossFx := applyFx (InventoryRowRaw.acSalesGross row) in
  let netAcPPFx := applyFx (InventoryRowRaw.netAcPP row) in
  let acSalesCostFx := applyFx (InventoryRowRaw.acSalesCost row) in
  let acSalesNetAmountFx := applyFx (InventoryRowRaw.acSalesNetAmount row) in
  let cogsFx := applyFx (InventoryRowRaw.cogsMonth row) in
  let discountRateMonth :=
    if (0 <? grossSalesFx)%float then Some (1 - netSalesFx / grossSalesFx)%float
    else None in
  {| InventoryRow.period := InventoryRowRaw.period row;
     InventoryRow.country := InventoryRowRaw.country row;
     InventoryRow.exRate := InventoryRowRaw.exRate row;
     InventoryRow.itemCode := InventoryRowRaw.itemCode row;
     InventoryRow.itemDesc1 := InventoryRowRaw.itemDesc1 row;
     InventoryRow.itemDesc2 := InventoryRowRaw.itemDesc2 row;
     InventoryRow.storeCode := InventoryRowRaw.storeCode row;
     InventoryRow.storeName := InventoryRowRaw.storeName row;
     InventoryRow.salesDiv := InventoryRowRaw.salesDiv row;
     InventoryRow.season := InventoryRowRaw.season row;
     InventoryRow.brand := InventoryRowRaw.brand row;
     InventoryRow.brandName := InventoryRowRaw.brandName row;
     InventoryRow.category := InventoryRowRaw.category row;
     InventoryRow.categoryName := InventoryRowRaw.categoryName row;
     InventoryRow.subcategory := InventoryRowRaw.subcategory row;
     InventoryRow.subcategoryName := InventoryRowRaw.subcategoryName row;
     InventoryRow.salesQty := InventoryRowRaw.salesQty row;
     InventoryRow.acSalesQty := InventoryRowRaw.acSalesQty row;
     InventoryRow.stockQty := InventoryRowRaw.stockQty row;
     InventoryRow.netAcPC := InventoryRowRaw.netAcPC row;
     InventoryRow.netAcPP := InventoryRowRaw.netAcPP row;
     InventoryRow.acSalesCost := InventoryRowRaw.acSalesCost row;
     InventoryRow.acSalesNetAmount := InventoryRowRaw.acSalesNetAmount row;
     InventoryRow.acSalesGross := InventoryRowRaw.acSalesGross row;
     InventoryRow.grossSalesMonth := InventoryRowRaw.grossSalesMonth row;
     InventoryRow.netSalesMonth := InventoryRowRaw.netSalesMonth row;
     InventoryRow.cogsMonth := InventoryRowRaw.cogsMonth row;
     InventoryRow.stockCost := InventoryRowRaw.stockCost row;
     InventoryRow.stockPriceTag := InventoryRowRaw.stockPriceTag row;
     InventoryRow.sourceYearType := InventoryRowRaw.sourceYearType row;
     InventoryRow.fxRate := fxRate;
     InventoryRow.grossSalesFx := grossSalesFx;
     InventoryRow.netSalesFx := netSalesFx;
     InventoryRow.stockPriceFx := stockPriceFx;
     InventoryRow.stockCostFx := stockCostFx;
     InventoryRow.acSalesGrossFx := acSalesGrossFx;
     InventoryRow.netAcPPFx := netAcPPFx;
     InventoryRow.acSalesCostFx := acSalesCostFx;
     InventoryRow.acSalesNetAmountFx := acSalesNetAmountFx;
     InventoryRow.cogsFx := cogsFx;
     InventoryRow.discountRateMonth := discountRateMonth;
     InventoryRow.seasonInfo := seasonInfo |}.

(** ** utils.ts: the graph row normalizer *)

Definition normalizeGraphDataRow (raw : GraphDataRowRaw.t) : GraphDataRow.t :=
  let country := GraphDataRowRaw.Country raw in
  let periodYear := JS.parseInt (JS.substring (GraphDataRowRaw.Period raw) 0 2) in
  let year : Z :=
    match periodYear with
    | Some py =>
        if (24 <=? py) && (py <=? 99) then 2000 + py
        else if (0 <=? py) && (py <? 24) then 2000 + py
        else
          match JS.parseInt (GraphDataRowRaw.Year raw) with
          | Some y => if y =? 0 then 2025 else y
          | None => 2025
          end
    | None =>
        match JS.parseInt (GraphDataRowRaw.Year raw) with
        | Some y => if y =? 0 then 2025 else y
        | None => 2025
        end
    end in
  let currentFwYear := if bool_decide (periodYear = Some 24) then 24 else 25 in
  let fxRate : float :=
    (if String.eqb country "HK" then 1
     else if String.eqb country "MC" then 1.03
     else if String.eqb country "TW" then 4.02
     else 1)%float in
  let applyFx (value : float) : float :=
    if String.eqb country "HK" then value else (value / fxRate)%float in
  let grossSalesFx := applyFx (GraphDataRowRaw.Gross_Sales raw) in
  let netSalesFx := applyFx (GraphDataRowRaw.Net_Sales raw) in
  let stockPriceFx := applyFx (GraphDataRowRaw.Stock_Price raw) in
  let stockCostFx := applyFx (GraphDataRowRaw.Stock_Cost raw) in
  let seasonInfo := parseSeason (Some (GraphDataRowRaw.Season_Code raw)) currentFwYear in
  let discountRate :=
    if (0 <? grossSalesFx)%float then Some (1 - netSalesFx / grossSalesFx)%float
    else None in
  {| GraphDataRow.Period := GraphDataRowRaw.Period raw;
     GraphDataRow.Year := GraphDataRowRaw.Year raw;
     GraphDataRow.Season_Code := GraphDataRowRaw.Season_Code raw;
     GraphDataRow.Gross_Sales := GraphDataRowRaw.Gross_Sales raw;
     GraphDataRow.Net_Sales := GraphDataRowRaw.Net_Sales raw;
     GraphDataRow.Stock_Price := GraphDataRowRaw.Stock_Price raw;
     GraphDataRow.Stock_Cost := GraphDataRowRaw.Stock_Cost raw;
     GraphDataRow.Country := GraphDataRowRaw.Country raw;
     GraphDataRow.period := GraphDataRowRaw.Period raw;
     GraphDataRow.year := year;
     GraphDataRow.seasonCode := GraphDataRowRaw.Season_Code raw;
     GraphDataRow.grossSalesFx := grossSalesFx;
     GraphDataRow.netSalesFx := netSalesFx;
     GraphDataRow.stockPriceFx := stockPriceFx;
     GraphDataRow.stockCostFx := stockCostFx;
     GraphDataRow.country := country;
     GraphDataRow.seasonInfo := seasonInfo;
     GraphDataRow.discountRate := discountRate |}.


(** ** utils.ts: the CSV tokenizer *)

(** [arr.push(x)] *)
Definition push {A} (arr : list A) (x : A) : list A := (arr ++ [x])%list.

Abbreviation Row := (gmap string string).

(** The loop of [parseCSVLine] from position [i], [line] being the
    characters from [i] on. *)
Fixpoint parseCSVLine_from (values : list string) (currentValue : string)
    (inQuotes : bool) (line : string) : list string :=
  match line with
  | String char rest =>
      if Ascii.eqb char JS.dquote then
        match rest with
        | String nextChar rest' =>
            if inQuotes && Ascii.eqb nextChar JS.dquote
            then parseCSVLine_from values (currentValue ++ JS.charString JS.dquote)
                   inQuotes rest'
            else parseCSVLine_from values currentValue (negb inQuotes) rest
        | EmptyString => parseCSVLine_from values currentValue (negb inQuotes) rest
        end
      else if Ascii.eqb char JS.comma && negb inQuotes then
        parseCSVLine_from (push values (JS.trim currentValue)) "" inQuotes rest
      else
        parseCSVLine_from values (currentValue ++ JS.charString char) inQuotes rest
  | EmptyString => push values (JS.trim currentValue)
  end.

Definition parseCSVLine (line : string) : list string :=
  parseCSVLine_from [] "" false line.

(** The quote state after a header line: a double quote toggles it unless
    the character before it is a double quote too. *)
Fixpoint quoteScan (prev : option ascii) (inQuotes : bool) (line : string) : bool :=
  match line with
  | String c r =>
      quoteScan (Some c)
        (if Ascii.eqb c JS.dquote && negb (bool_decide (prev = Some JS.dquote))
         then negb inQuotes else inQuotes) r
  | EmptyString => inQuotes
  end.

(** The [while] loop that joins the lines of a header left open by a quote;
    [pending] is [lines] from [currentLineIndex] on.  It returns
    [headerLines] and [headerEndIndex]. *)
Fixpoint headerWhile (inQuotes : bool) (currentLineIndex : nat)
    (headerLines : list string) (headerEndIndex : nat) (pending : list string)
  : list string * nat :=
  match pending with
  | next :: pending' =>
      if inQuotes && (Z.of_nat currentLineIndex <? 5) then
        headerWhile (quoteScan None inQuotes next) (S currentLineIndex)
          (push headerLines next) (S currentLineIndex) pending'
      else (headerLines, headerEndIndex)
  | [] => (headerLines, headerEndIndex)
  end.

Definition cleanHeader (h : string) : string :=
  let cleaned := JS.trim h in
  let cleaned :=
    if (JS.startsWith cleaned JS.dquote && JS.endsWith cleaned JS.dquote)
       || (JS.startsWith cleaned JS.squote && JS.endsWith cleaned JS.squote)
    then JS.slice cleaned 1 (Some (-1)) else cleaned in
  JS.trim (JS.replaceLineBreaks cleaned).

(** [row[key] = value] on an object literal, for a string [value]: every
    key becomes an own property but [__proto__], which reaches the setter
    of [Object.prototype]; that setter does nothing when given a string. *)
Definition setProperty (row : Row) (key value : string) : Row :=
  if decide (key = "__proto__") then row else <[key := value]> row.

(** [cleanedHeaders.forEach((header, index) => row[header] = values[index] ?? '')]
    from [index] on. *)
Fixpoint forEachHeader (values : list string) (row : Row) (index : nat)
    (headers : list string) : Row :=
  match headers with
  | header :: headers' =>
      forEachHeader values (setProperty row header (default "" (values !! index)))
        (S index) headers'
  | [] => row
  end.

Definition buildRow (cleanedHeaders values : list string) : Row :=
  forEachHeader values ∅ 0%nat cleanedHeaders.

(** The test that admits a data row. *)
Definition accepts (cleanedHeaders values : list string) : bool :=
  Z.of_nat (length cleanedHeaders) - 1 <=? Z.of_nat (length values).

(** One turn of the data loop on [lines[i]]. *)
Definition dataStep (cleanedHeaders : list string) (rows : list Row) (raw : string)
  : list Row :=
  let line := JS.trim raw in
  if negb (JS.truthy line) then rows
  else
    let values := parseCSVLine line in
    if accepts cleanedHeaders values
    then push rows (buildRow cleanedHeaders values)
    else rows.

Definition dataRows (cleanedHeaders : list string) (lines : list string) : list Row :=
  foldl (dataStep cleanedHeaders) [] lines.

Definition nonBlank (line : string) : bool := JS.truthy (JS.trim line).

(** The header stage: the cleaned headers and [headerEndIndex]. *)
Definition headerStage (lines : list string) : list string * nat :=
  match lines with
  | line0 :: pending =>
      let inQuotes := quoteScan None false line0 in
      let '(headerLines, headerEndIndex) :=
        headerWhile inQuotes 1 [line0] 1 pending in
      let combinedHeader := String.concat " " headerLines in
      let headers := parseCSVLine combinedHeader in
      (map cleanHeader headers, headerEndIndex)
  | [] => ([], 1%nat)
  end.

Definition parseCSV (csvText : string) : list Row :=
  let lines := List.filter nonBlank (JS.splitLines csvText) in
  if Z.of_nat (length lines) <? 2 then []
  else
    let '(cleanedHeaders, headerEndIndex) := headerStage lines in
    dataRows cleanedHeaders (drop headerEndIndex lines).

(** ** utils.ts and OffSeasonInventoryDashboard.tsx: decoders and orchestrators *)

Record Response := { ok : bool; text : string }.

Record Props := {
  pyFilePath : option string;
  cyFilePath : option string;
  pyRowsRaw : option (list Row);
  cyRowsRaw : option (list Row);
  currentFwYear : Z;
}.

Section Pipeline.

(** [String.prototype.toUpperCase], whose Unicode case mapping is left
    open, and [fetch], which answers a path with a response or fails. *)
Variable toUpperCase : string -> string.
Variable fetch : string -> option Response.

Definition parseCSVRow (row : Row) (sourceYearType : SourceYearType)
  : InventoryRowRaw.t :=
  let country := toUpperCase (parseString (row !! "Country")) in
  {| InventoryRowRaw.period := parseString (row !! "period");
     InventoryRowRaw.country := country;
     InventoryRowRaw.exRate := parseNumber (row !! "Ex-rate");
     InventoryRowRaw.itemCode := parseString (row !! "ITEM CODE");
     InventoryRowRaw.itemDesc1 := parseString (row !! "ITEM DESC1");
     InventoryRowRaw.itemDesc2 :=
       (let d := parseString (row !! "ITEM DESC2") in
        if JS.truthy d then Some d else None);
     InventoryRowRaw.storeCode := parseString (row !! "STORE");
     InventoryRowRaw.storeName := parseString (row !! "STORE NAME");
     InventoryRowRaw.salesDiv := parseString (row !! "SALES DIV");
     InventoryRowRaw.season := parseString (row !! "SEASON");
     InventoryRowRaw.brand := parseString (row !! "BRAND");
     InventoryRowRaw.brandName := parseString (row !! "BRAND NAME");
     InventoryRowRaw.category := parseString (row !! "CATEGORY");
     InventoryRowRaw.categoryName := parseString (row !! "CATEGORY NAME");
     InventoryRowRaw.subcategory := parseString (row !! "SUBCATEGORY");
     InventoryRowRaw.subcategoryName := parseString (row !! "SUBCATEGORY NAME");
     InventoryRowRaw.salesQty := parseNumber (row !! "Sales (Qty)");
     InventoryRowRaw.acSalesQty := parseNumber (row !! "AC Sales (Qty)");
     InventoryRowRaw.stockQty := parseNumber (row !! "Stock (Qty)");
     InventoryRowRaw.netAcPC := parseNumber (row !! "Net AcP.C");
     InventoryRowRaw.netAcPP := parseNumber (row !! "Net AcP.P");
     InventoryRowRaw.acSalesCost :=
       parseNumber
         (orElse (row !! ("AC Sales" ++ String JS.LF "(Cost)"))
            (orElse (row !! "AC Sales (Cost)")
               (row !! ("AC Sales" ++ String JS.CR (String JS.LF "(Cost)")))));
     InventoryRowRaw.acSalesNetAmount :=
       parseNumber
         (orElse (row !! ("AC Sales" ++ String JS.LF "(Net Amount)"))
            (orElse (row !! "AC Sales (Net Amount)")
               (row !! ("AC Sales" ++ String JS.CR (String JS.LF "(Net Amount)")))));
     InventoryRowRaw.acSalesGross :=
       parseNumber
         (orElse (row !! ("AC Sales" ++ String JS.LF "(Gross Sales)"))
            (orElse (row !! "AC Sales (Gross Sales)")
               (row !! ("AC Sales" ++ String JS.CR (String JS.LF "(Gross Sales)")))));
     InventoryRowRaw.grossSalesMonth := parseNumber (row !! "Gross Sales ($)");
     InventoryRowRaw.netSalesMonth := parseNumber (row !! "Net Sales ($)");
     InventoryRowRaw.cogsMonth := parseNumber (row !! "COGS ($)");
     InventoryRowRaw.stockCost := parseNumber (row !! "Stock Cost ($)");
     InventoryRowRaw.stockPriceTag := parseNumber (row !! "Stock Price ($)");
     InventoryRowRaw.sourceYearType := sourceYearType |}.

(** The body of one turn of a decoding loop: decode, classify against
    [fwYear], normalize.  None of the three steps throws, so the [catch]
    branch of the loop is never taken. *)
Definition normalizeRow (sourceYearType : SourceYearType) (fwYear : Z) (row : Row)
  : InventoryRow.t :=
  let raw := parseCSVRow row sourceYearType in
  let seasonInfo := parseSeason (Some (InventoryRowRaw.season raw)) fwYear in
  applyFxNormalization raw seasonInfo.

(** [loadCSVFile]: [None] is the rejected promise. *)
Definition loadCSVFile (filePath : string) : option string :=
  match fetch filePath with
  | Some response => if negb (ok response) then None else Some (text response)
  | None => None
  end.

Definition loadAndNormalizeData (pyFilePath cyFilePath : string) (currentFwYear : Z)
  : option (list InventoryRow.t) :=
  match loadCSVFile pyFilePath, loadCSVFile cyFilePath with
  | Some pyCsv, Some cyCsv =>
      let pyRows := parseCSV pyCsv in
      let cyRows := parseCSV cyCsv in
      let allRows := [] in
      let allRows := foldl (fun acc row => push acc (normalizeRow PY currentFwYear row))
                       allRows pyRows in
      let allRows := foldl (fun acc row => push acc (normalizeRow CY currentFwYear row))
                       allRows cyRows in
      Some allRows
  | _, _ => None
  end.

(** The inventory part of [loadData] in [OffSeasonInventoryDashboard]: the
    rows handed to [setData], or [None] when a fetch fails and the error
    state is set instead. *)
Definition loadData (props : Props) : option (list InventoryRow.t) :=
  let decode (pyRows cyRows : list Row) : list InventoryRow.t :=
    let allRows := [] in
    let allRows := foldl (fun acc row => push acc (normalizeRow PY 24 row)) allRows pyRows in
    let allRows := foldl (fun acc row => push acc (normalizeRow CY 25 row)) allRows cyRows in
    allRows in
  match pyRowsRaw props, cyRowsRaw props with
  | Some py, Some cy => Some (decode py cy)
  | _, _ =>
      match pyFilePath props, cyFilePath props with
      | Some pyPath, Some cyPath =>
          if JS.truthy pyPath && JS.truthy cyPath then
            match fetch pyPath, fetch cyPath with
            | Some pyResponse, Some cyResponse =>
                Some (decode (parseCSV (text pyResponse)) (parseCSV (text cyResponse)))
            | _, _ => None
            end
          else Some []
      | _, _ => Some []
      end
  end.

Definition parseGraphCSVRow (row : Row) : GraphDataRowRaw.t :=
  {| GraphDataRowRaw.Period := parseString (row !! "Period");
     GraphDataRowRaw.Year := parseString (row !! "Year");
     GraphDataRowRaw.Season_Code := parseString (row !! "Season_Code");
     GraphDataRowRaw.Gross_Sales := parseNumber (row !! "Gross_Sales");
     GraphDataRowRaw.Net_Sales := parseNumber (row !! "Net_Sales");
     GraphDataRowRaw.Stock_Price := parseNumber (row !! "Stock_Price");
     GraphDataRowRaw.Stock_Cost := parseNumber (row !! "Stock_Cost");
     GraphDataRowRaw.Country := toUpperCase (parseString (row !! "Country")) |}.

Definition parseGraphCSV (csvText : string) : list GraphDataRow.t :=
  foldl (fun graphData row => push graphData (normalizeGraphDataRow (parseGraphCSVRow row)))
    [] (parseCSV csvText).

End Pipeline.

(** An upper-casing of the ASCII letters, to run the pipeline on examples. *)
Definition upperAscii (s : string) : string :=
  string_of_list_ascii
    (map (fun c => let n := nat_of_ascii c in
                   if (97 <=? n)%nat && (n <=? 122)%nat then ascii_of_nat (n - 32) else c)
       (list_ascii_of_string s)).


(** ** The season classifier as the specification words it

    Section 4.3 of the specification, read on the code string as it is
    given: the last character is the type discriminator, the characters
    before it are the year part, and the bucket has four cases on
    [diff = currentFiscalYear - year].  An empty year part has no digit to
    parse and gives a null year. *)

Module Spec.

Fixpoint lastChar (code : string) : option ascii :=
  match code with
  | String c EmptyString => Some c
  | String _ r => lastChar r
  | EmptyString => None
  end.

Fixpoint leading (code : string) : string :=
  match code with
  | String _ EmptyString => EmptyString
  | String c r => String c (leading r)
  | EmptyString => EmptyString
  end.

Definition entirelyDigits (s : string) : bool :=
  match list_ascii_of_string s with
  | [] => false
  | cs => forallb JS.isDigit cs
  end.

Definition decimalValue (s : string) : Z :=
  fold_left (fun acc c => 10 * acc + JS.digitValue c) (list_ascii_of_string s) 0.

Definition typeOf (code : string) : SeasonType :=
  match lastChar code with
  | Some "F"%char => FW
  | Some "S"%char => S_
  | Some "N"%char => ACC
  | _ => OTHER
  end.

Definition yearOf (code : string) : option Z :=
  if entirelyDigits (leading code) then Some (decimalValue (leading code)) else None.

Definition bucketOf (ty : SeasonType) (year : option Z) (currentFiscalYear : Z)
  : YearBucket :=
  match ty, year with
  | FW, Some year =>
      let diff := currentFiscalYear - year in
      if diff <=? 0 then InSeason
      else if diff =? 1 then Y1
      else if diff =? 2 then Y2
      else if 3 <=? diff then Y3Plus
      else InSeason
  | _, _ => InSeason
  end.


End Spec.

(** The three classification fields of a [SeasonInfo]. *)
Definition classification (info : SeasonInfo) : SeasonType * option Z * YearBucket :=
  (seasonType info, seasonYear info, yearBucket info).



(** The tokens of a data line. *)
Definition tokens (l : string) : list string := parseCSVLine (JS.trim l).

(** ** Sample inputs *)

(** A decoded record with the given country, season code and monthly gross
    and net sales; the other columns are absent. *)
Definition sampleRow (country season gross net : string) : Row :=
  <["Country" := country]> (<["SEASON" := season]>
    (<["Gross Sales ($)" := gross]> (<["Net Sales ($)" := net]> ∅))).

Definition sampleRaw (country season gross net : string) (src : SourceYearType)
  : InventoryRowRaw.t :=
  parseCSVRow upperAscii (sampleRow country season gross net) src.

(** The prior-year and current-year files of the end-to-end example of the
    specification, served under two paths. *)
Definition pyCsvText : string :=
  "SEASON,Country,Gross Sales ($),Net Sales ($)" ++ String JS.LF "24F,HK,1000,900".

Definition cyCsvText : string :=
  "SEASON,Country,Gross Sales ($),Net Sales ($)" ++ String JS.LF "24F,HK,1100,950".

Definition sampleFetch (path : string) : option Response :=
  if String.eqb path "/py.csv" then Some {| ok := true; text := pyCsvText |}
  else if String.eqb path "/cy.csv" then Some {| ok := true; text := cyCsvText |}
  else None.

(** Every code unit below 256. *)
Definition allAscii : list ascii := map ascii_of_nat (seq 0 256).

(** The characters that can start a numeric literal of [parseFloat]. *)
Definition numericStart (c : ascii) : bool :=
  JS.isDigit c ||
  match c with "+"%char | "-"%char | "."%char | "I"%char => true | _ => false end.

(** The characters [parseNumber] deletes before it parses. *)
Definition stripped (c : ascii) : bool := Ascii.eqb ","%char c || JS.isWhiteSpace c.

(** What the off-season report sees of a normalized row. *)
Definition summary (r : InventoryRow.t) : SourceYearType * YearBucket * bool :=
  (InventoryRow.sourceYearType r, yearBucket (InventoryRow.seasonInfo r), isOffSeasonFW r).

Definition parses24 (s : string) : bool :=
  match JS.parseInt s with Some 24 => true | _ => false end.

(** ** utils.ts: the season-target decoder *)

Module TargetDataRowRaw.
Record t := mk {
  PERIOD : string;
  SEASON_NAME : string;
  SEASON : string;
  CATEGORY : string;
  AMOUNT : float;
}.
End TargetDataRowRaw.

Module TargetDataRow.
Record t := mk {
  period : string;
  seasonName : string;
  season : string;
  category : string;
  amount : float;
  seasonInfo : SeasonInfo;
}.
End TargetDataRow.

#[export] Instance TargetDataRow_has : HasSeasonInfo TargetDataRow.t :=
  TargetDataRow.seasonInfo.

Definition parseTargetCSVRow (row : Row) : TargetDataRowRaw.t :=
  {| TargetDataRowRaw.PERIOD := parseString (row !! "PERIOD");
     TargetDataRowRaw.SEASON_NAME := parseString (row !! "SEASON_NAME");
     TargetDataRowRaw.SEASON := parseString (row !! "SEASON");
     TargetDataRowRaw.CATEGORY := parseString (row !! "CATEGORY");
     TargetDataRowRaw.AMOUNT := parseNumber (row !! "AMOUNT") |}.

Definition normalizeTargetDataRow (raw : TargetDataRowRaw.t) (currentFwYear : Z)
  : TargetDataRow.t :=
  let seasonInfo := parseSeason (Some (TargetDataRowRaw.SEASON raw)) currentFwYear in
  {| TargetDataRow.period := TargetDataRowRaw.PERIOD raw;
     TargetDataRow.seasonName := TargetDataRowRaw.SEASON_NAME raw;
     TargetDataRow.season := TargetDataRowRaw.SEASON raw;
     TargetDataRow.category := TargetDataRowRaw.CATEGORY raw;
     TargetDataRow.amount := TargetDataRowRaw.AMOUNT raw;
     TargetDataRow.seasonInfo := seasonInfo |}.

Definition parseTargetCSV (csvText : string) (currentFwYear : Z) : list TargetDataRow.t :=
  foldl (fun result row =>
           push result (normalizeTargetDataRow (parseTargetCSVRow row) currentFwYear))
    [] (parseCSV csvText).

(** ** OffSeasonInventoryDashboard.tsx: the filters and the target buckets *)

#[export] Instance SourceYearType_eq_dec : EqDecision SourceYearType.
Proof. solve_decision. Defined.

(** The [filteredData] memo: the rows of HK and MC that are off-season
    Fall/Winter. *)
Definition filteredData (data : list InventoryRow.t) : list InventoryRow.t :=
  List.filter
    (fun row =>
       let isHKorMC := String.eqb (InventoryRow.country row) "HK"
                       || String.eqb (InventoryRow.country row) "MC" in
       let isOffSeason := isOffSeasonFW row in
       isHKorMC && isOffSeason)
    data.

Definition cyOffSeasonFW (data : list InventoryRow.t) : list InventoryRow.t :=
  List.filter (fun row => bool_decide (InventoryRow.sourceYearType row = CY))
    (filteredData data).

Definition pyOffSeasonFW (data : list InventoryRow.t) : list InventoryRow.t :=
  List.filter (fun row => bool_decide (InventoryRow.sourceYearType row = PY))
    (filteredData data).

(** [cyFiltered] of the item analysis: [filteredData] filtered once more. *)
Definition cyFiltered (data : list InventoryRow.t) : list InventoryRow.t :=
  List.filter
    (fun row =>
       bool_decide (InventoryRow.sourceYearType row = CY)
       && isOffSeasonFW row
       && (String.eqb (InventoryRow.country row) "HK"
           || String.eqb (InventoryRow.country row) "MC"))
    (filteredData data).

(** [s.replace(pat, rep)] for a string pattern and a replacement without
    [$]: the first occurrence of [pat] is replaced. *)
Fixpoint replaceFirst (pat rep s : string) : string :=
  if String.prefix pat s then rep ++ JS.slice s (JS.len pat) None
  else
    match s with
    | String c r => String c (replaceFirst pat rep r)
    | EmptyString => EmptyString
    end.

(** The body of the loop over [targetBySeason] in [monthlyTargetStatus]:
    the bucket whose target receives the amount of a season, if any. *)
Definition targetBucket (season : string) : option YearBucket :=
  let seasonCode := replaceFirst "SS" "S" (replaceFirst "FW" "F" season) in
  let seasonInfo := parseSeason (Some seasonCode) 25 in
  if bool_decide (seasonType seasonInfo = FW) then
    let bucket := yearBucket seasonInfo in
    if bool_decide (bucket = Y1) || bool_decide (bucket = Y2)
       || bool_decide (bucket = Y3Plus)
    then Some bucket else None
  else None.

(** ** Vocabulary of the further properties *)

(** [c] occurs in [s]. *)
Fixpoint hasChar (c : ascii) (s : string) : bool :=
  match s with
  | String d r => Ascii.eqb d c || hasChar c r
  | EmptyString => false
  end.

(** The pieces of [s] between the occurrences of [sep]; [cur] is the piece
    being read. *)
Fixpoint splitOnFrom (sep : ascii) (cur s : string) : list string :=
  match s with
  | String c r =>
      if Ascii.eqb c sep then cur :: splitOnFrom sep EmptyString r
      else splitOnFrom sep (cur ++ JS.charString c) r
  | EmptyString => [cur]
  end.

Definition splitOn (sep : ascii) (s : string) : list string :=
  splitOnFrom sep EmptyString s.

(** The buckets in the order of age. *)
Definition bucketRank (b : YearBucket) : Z :=
  match b with InSeason => 0 | Y1 => 1 | Y2 => 2 | Y3Plus => 3 end.

(** The first lines of a file whose header spans two lines, and one data
    line. *)
Definition multiLineCsvText : string :=
  "period,Country," ++ String JS.dquote "AC Sales" ++ String JS.LF
    ("(Cost)" ++ String JS.dquote ",SEASON" ++ String JS.LF "2512,hk,5,24F").

(** [s] is made of white space only. *)
Fixpoint allWs (s : string) : bool :=
  match s with
  | String c r => JS.isWhiteSpace c && allWs r
  | EmptyString => true
  end.

(** A cell that can stand in a line as it is: trimmed, and free of commas,
    double quotes, line feeds and carriage returns. *)
Definition plainCell (f : string) : bool :=
  String.eqb (JS.trim f) f && negb (hasChar JS.comma f) && negb (hasChar JS.dquote f)
  && negb (hasChar JS.LF f) && negb (hasChar JS.CR f).

(** * Properties *)

(** ** Strings *)

Lemma trimStart_head_not_ws c r :
  JS.isWhiteSpace c = false -> JS.trimStart (String c r) = String c r.
Proof. intros H. simpl. now rewrite H. Qed.

Lemma slice_last s :
  JS.slice s (-1) None =
    match Spec.lastChar s with Some c => JS.charString c | None => "" end.
Proof.
  unfold JS.slice, JS.len. cbn [default from_option id].
  destruct s as [|c r]; [reflexivity|].
  change (-1 <? 0) with true. cbv iota.
  set (n := String.length (String c r)).
  assert (Hn : (1 <= n)%nat) by (subst n; simpl; lia).
  replace (Z.of_nat n <? 0) with false by (symmetry; apply Z.ltb_ge; lia).
  replace (Z.to_nat (Z.max (Z.of_nat n + -1) 0)) with (n - 1)%nat by lia.
  replace (Z.to_nat _) with 1%nat by lia.
  subst n. clear Hn. revert c.
  induction r as [|d r IH]; intros c; [reflexivity|].
  specialize (IH d). cbn [String.length] in *.
  replace (S (S (String.length r)) - 1)%nat with (S (S (String.length r) - 1)) by lia.
  cbn [String.substring Spec.lastChar]. exact IH.
Qed.

Lemma slice_leading s : JS.slice s 0 (Some (-1)) = Spec.leading s.
Proof.
  unfold JS.slice, JS.len. cbn [default from_option id].
  change (0 <? 0) with false. change (-1 <? 0) with true. cbv iota.
  set (n := String.length s).
  replace (Z.to_nat (Z.min 0 (Z.of_nat n))) with 0%nat by lia.
  replace (Z.to_nat _) with (n - 1)%nat by lia.
  subst n. induction s as [|c r IH]; [reflexivity|].
  destruct r as [|d r]; [reflexivity|].
  cbn [String.length] in *.
  replace (S (S (String.length r)) - 1)%nat with (S (S (String.length r) - 1)) by lia.
  cbn [String.substring Spec.leading]. f_equal. exact IH.
Qed.

Lemma allDigits_forallb s :
  JS.allDigits s = forallb JS.isDigit (list_ascii_of_string s).
Proof. induction s as [|c r IH]; [reflexivity|]. simpl. now rewrite IH. Qed.

Lemma testDigits_spec s : JS.testDigits s = Spec.entirelyDigits s.
Proof.
  unfold JS.testDigits, Spec.entirelyDigits. rewrite allDigits_forallb.
  destruct s; reflexivity.
Qed.

Lemma isDigit_not_ws c : JS.isDigit c = true -> JS.isWhiteSpace c = false.
Proof.
  destruct c as [[] [] [] [] [] [] [] []]; simpl; intros H;
    first [reflexivity | discriminate H].
Qed.

Lemma isDigit_not_sign c r :
  JS.isDigit c = true -> JS.readSign (String c r) = (false, String c r).
Proof.
  destruct c as [[] [] [] [] [] [] [] []]; simpl; intros H;
    first [reflexivity | discriminate H].
Qed.

Lemma readDigits_all acc n s :
  JS.allDigits s = true ->
  JS.readDigits acc n s =
    (fold_left (fun a c => 10 * a + JS.digitValue c) (list_ascii_of_string s) acc,
     (n + String.length s)%nat, "").
Proof.
  revert acc n. induction s as [|c r IH]; intros acc n H; simpl.
  - now rewrite Nat.add_0_r.
  - simpl in H. apply andb_true_iff in H as [Hc Hr]. rewrite Hc, (IH _ _ Hr).
    now rewrite Nat.add_succ_r.
Qed.

(** On a non-empty string of digits [parseInt] reads the whole string as a
    decimal numeral. *)
Lemma parseInt_digits s :
  JS.testDigits s = true -> JS.parseInt s = Some (Spec.decimalValue s).
Proof.
  unfold JS.testDigits. destruct s as [|c r]; [discriminate|]. cbn [JS.truthy andb].
  intros H. pose proof H as H'. simpl in H'. apply andb_true_iff in H' as [Hc _].
  unfold JS.parseInt.
  rewrite (trimStart_head_not_ws _ _ (isDigit_not_ws _ Hc)).
  rewrite (isDigit_not_sign _ _ Hc), (readDigits_all _ _ _ H).
  reflexivity.
Qed.

Lemma suffix_type s :
  (if String.eqb (JS.slice s (-1) None) "F" then FW
   else if String.eqb (JS.slice s (-1) None) "S" then S_
   else if String.eqb (JS.slice s (-1) None) "N" then ACC
   else OTHER) = Spec.typeOf s.
Proof.
  rewrite slice_last. unfold Spec.typeOf.
  destruct (Spec.lastChar s) as [c|]; [|reflexivity].
  destruct c as [[] [] [] [] [] [] [] []]; reflexivity.
Qed.

(** ** The season classifier *)

Lemma parseSeason_nonempty code cur :
  JS.trim code <> "" ->
  parseSeason (Some code) cur =
    {| seasonCode := JS.trim code;
       seasonType := Spec.typeOf (JS.trim code);
       seasonYear := Spec.yearOf (JS.trim code);
       yearBucket := Spec.bucketOf (Spec.typeOf (JS.trim code))
                       (Spec.yearOf (JS.trim code)) cur |}.
Proof.
  intros Hne. unfold parseSeason. change (default "" (Some code)) with code.
  destruct (JS.trim code) as [|c r] eqn:E; [congruence|]. cbn [JS.truthy negb].
  rewrite suffix_type, slice_leading.
  assert (Hy : (if JS.testDigits (Spec.leading (String c r))
                then JS.parseInt (Spec.leading (String c r)) else None)
               = Spec.yearOf (String c r)).
  { unfold Spec.yearOf. rewrite <- testDigits_spec.
    destruct (JS.testDigits _) eqn:D; [|reflexivity]. now apply parseInt_digits. }
  rewrite Hy. f_equal.
  unfold Spec.bucketOf.
  destruct (Spec.typeOf (String c r)), (Spec.yearOf (String c r)) as [y|]; try reflexivity.
  cbv zeta.
  destruct (cur - y <=? 0) eqn:H0; [reflexivity|].
  destruct (cur - y =? 1) eqn:H1; [reflexivity|].
  destruct (cur - y =? 2) eqn:H2; [reflexivity|].
  replace (3 <=? cur - y) with true; [reflexivity|].
  symmetry. apply Z.leb_le. apply Z.leb_gt in H0. apply Z.eqb_neq in H1, H2. lia.
Qed.




(** The examples of section 8 of the specification. *)
Example parseSeason_examples :
  classification (parseSeason (Some "24F") 25) = (FW, Some 24, Y1) /\
  classification (parseSeason (Some "23F") 25) = (FW, Some 23, Y2) /\
  classification (parseSeason (Some "21F") 25) = (FW, Some 21, Y3Plus) /\
  classification (parseSeason (Some "25F") 25) = (FW, Some 25, InSeason) /\
  classification (parseSeason (Some "25S") 25) = (S_, Some 25, InSeason) /\
  (forall cur, classification (parseSeason (Some "") cur) = (OTHER, None, InSeason)).
Proof. repeat split. Qed.

(** ** The off-season predicate *)

Lemma isOffSeasonFW_table {A} `{HasSeasonInfo A} (row : A) :
  isOffSeasonFW row =
    match seasonType (seasonInfoOf row), yearBucket (seasonInfoOf row) with
    | FW, (Y1 | Y2 | Y3Plus) => true
    | FW, InSeason => false
    | (S_ | ACC | OTHER), _ => false
    end.
Proof.
  unfold isOffSeasonFW.
  now destruct (seasonType (seasonInfoOf row)), (yearBucket (seasonInfoOf row)).
Qed.

Lemma isOffSeasonFW_iff {A} `{HasSeasonInfo A} (row : A) :
  isOffSeasonFW row = true <->
  seasonType (seasonInfoOf row) = FW /\
  (yearBucket (seasonInfoOf row) = Y1 \/ yearBucket (seasonInfoOf row) = Y2 \/
   yearBucket (seasonInfoOf row) = Y3Plus).
Proof.
  rewrite isOffSeasonFW_table.
  destruct (seasonType (seasonInfoOf row)), (yearBucket (seasonInfoOf row));
    split;
    first [ discriminate
          | intros [? [?|[?|?]]]; discriminate
          | intros _; reflexivity
          | intros _; split; auto ].
Qed.

(** C2: [isOffSeasonFW row] holds exactly when the season type is
    Fall/Winter and the year bucket is one of one-year-past, two-years-past
    and three-plus-years-past; over the sixteen pairs of the two
    enumerations it is the truth table with three true entries. *)
Theorem isOffSeasonFW_truth_table {A} `{HasSeasonInfo A} (row : A) :
  (isOffSeasonFW row = true <->
     seasonType (seasonInfoOf row) = FW /\
     (yearBucket (seasonInfoOf row) = Y1 \/ yearBucket (seasonInfoOf row) = Y2 \/
      yearBucket (seasonInfoOf row) = Y3Plus)) /\
  isOffSeasonFW row =
    match seasonType (seasonInfoOf row), yearBucket (seasonInfoOf row) with
    | FW, (Y1 | Y2 | Y3Plus) => true
    | FW, InSeason => false
    | (S_ | ACC | OTHER), _ => false
    end /\
  (forall code ty year b,
     isOffSeasonFW {| carried := {| seasonCode := code; seasonType := ty;
                                    seasonYear := year; yearBucket := b |} |}
     = match ty, b with
       | FW, Y1 | FW, Y2 | FW, Y3Plus => true
       | FW, InSeason => false
       | S_, _ | ACC, _ | OTHER, _ => false
       end).
Proof.
  split; [apply isOffSeasonFW_iff|]. split; [apply isOffSeasonFW_table|].
  intros code ty year b. now destruct ty, b.
Qed.

(** C8: in every [SeasonInfo] that [parseSeason] returns, a type other than
    Fall/Winter, or a null year, comes with the bucket current/in-season;
    hence on such records [isOffSeasonFW] holds exactly when the bucket is
    not current/in-season. *)
Theorem parseSeason_bucket_invariant (code : option string) (cur : Z) :
  (seasonType (parseSeason code cur) <> FW \/ seasonYear (parseSeason code cur) = None ->
   yearBucket (parseSeason code cur) = InSeason) /\
  (isOffSeasonFW {| carried := parseSeason code cur |} = true <->
   yearBucket (parseSeason code cur) <> InSeason).
Proof.
  assert (Inv : seasonType (parseSeason code cur) <> FW \/
                seasonYear (parseSeason code cur) = None ->
                yearBucket (parseSeason code cur) = InSeason).
  { unfold parseSeason. destruct (negb _); [reflexivity|]. cbn [seasonType seasonYear yearBucket].
    match goal with |- context [if JS.testDigits ?y then _ else _] =>
      destruct (if JS.testDigits y then JS.parseInt y else None) as [yr|] end;
    match goal with |- context [if String.eqb ?a "F" then FW else ?b] =>
      destruct (if String.eqb a "F" then FW else b) end;
    intros [?|?]; congruence || reflexivity. }
  split; [exact Inv|].
  rewrite (isOffSeasonFW_iff {| carried := parseSeason code cur |}).
  change (seasonInfoOf {| carried := parseSeason code cur |}) with (parseSeason code cur).
  split.
  - intros [_ [E|[E|E]]]; rewrite E; discriminate.
  - intros Hb. split.
    + destruct (decide (seasonType (parseSeason code cur) = FW)) as [E|E]; [exact E|].
      exfalso. apply Hb, Inv. now left.
    + destruct (yearBucket (parseSeason code cur)); auto. congruence.
Qed.

(** ** Binary64 facts *)

Lemma Prim2SF_one : Prim2SF 1%float = S754_finite false 4503599627370496 (-52).
Proof. reflexivity. Qed.

Lemma digits2_pos_double m : digits2_pos (m~0) = Pos.succ (digits2_pos m).
Proof. reflexivity. Qed.

Lemma div_eucl_exact a b : b <> 0 -> Z.div_eucl (a * b) b = (a, 0).
Proof.
  intros Hb. pose proof (Z.div_mul a b Hb) as Hq. pose proof (Z.mod_mul a b Hb) as Hr.
  unfold Z.div, Z.modulo in Hq, Hr.
  destruct (Z.div_eucl (a * b) b) as [q r]. now subst.
Qed.

(** Dividing a finite binary64 by one gives it back: the quotient of the
    mantissas is exact and rounding leaves it as it is. *)
Lemma SFdiv_one_finite s m e :
  bounded prec emax m e = true ->
  SFdiv prec emax (S754_finite s m e) (S754_finite false 4503599627370496 (-52))
  = S754_finite s m e.
Proof.
  unfold bounded, canonical_mantissa. intros Hb.
  apply andb_true_iff in Hb as [Hc He]. apply Z.eqb_eq in Hc.
  unfold SFdiv, SFdiv_core_binary. cbn [Zdigits2].
  change (digits2_pos 4503599627370496) with 53%positive.
  rewrite xorb_false_r.
  assert (Hcase : e = -1074 \/ (e <> -1074 /\ Z.pos (digits2_pos m) = 53)).
  { unfold fexp, emin in Hc. change prec with 53 in Hc. change emax with 1024 in Hc. lia. }
  destruct Hcase as [->|[Hne Hd]].
  - replace (Z.min (fexp prec emax (Z.pos (digits2_pos m) + -1074 - (53 + -52)))
               (-1074 - -52)) with (-1074).
    2:{ unfold fexp, emin in Hc |- *. change prec with 53 in *. change emax with 1024 in *. lia. }
    change (-1074 - -52 - -1074) with 52. cbv iota.
    rewrite Z.shiftl_mul_pow2 by lia.
    rewrite div_eucl_exact by (change (2 ^ 52) with 4503599627370496; lia).
    change (new_location 4503599627370496 0) with loc_Exact.
    unfold binary_round_aux, shr_fexp. cbn [Zdigits2 shr_record_of_loc].
    rewrite Hc. change (-1074 - -1074) with 0. cbn [shr shr_m loc_of_shr_record round_nearest_even].
    cbn [Zdigits2]. rewrite Hc. change (-1074 - -1074) with 0. cbn [shr shr_m].
    now rewrite He.
  - replace (Z.min (fexp prec emax (Z.pos (digits2_pos m) + e - (53 + -52))) (e - -52))
      with (e - 1).
    2:{ unfold fexp, emin in Hc |- *. change prec with 53 in *. change emax with 1024 in *. lia. }
    replace (e - -52 - (e - 1)) with 53 by lia. cbv iota.
    rewrite Z.shiftl_mul_pow2 by lia.
    replace (Z.pos m * 2 ^ 53) with (Z.pos m~0 * 4503599627370496)
      by (change (2 ^ 53) with 9007199254740992; lia).
    rewrite div_eucl_exact by lia.
    change (new_location 4503599627370496 0) with loc_Exact.
    unfold binary_round_aux, shr_fexp. cbn [Zdigits2 shr_record_of_loc].
    rewrite digits2_pos_double.
    replace (fexp prec emax (Z.pos (Pos.succ (digits2_pos m)) + (e - 1)) - (e - 1)) with 1.
    2:{ unfold fexp, emin in Hc |- *. change prec with 53 in *. change emax with 1024 in *. lia. }
    cbn [shr SpecFloat.iter_pos shr_1 orb shr_m loc_of_shr_record round_nearest_even Zdigits2].
    replace (e - 1 + 1) with e by lia.
    rewrite Hc, Z.sub_diag. cbn [shr shr_m].
    now rewrite He.
Qed.

(** [x / 1 = x] for every binary64 [x], NaN and the infinities included. *)
Lemma float_div_one (x : float) : (x / 1)%float = x.
Proof.
  apply Prim2SF_inj. rewrite div_spec, Prim2SF_one.
  pose proof (Prim2SF_valid x) as Hv.
  destruct (Prim2SF x) as [s|s| |s m e]; cbn [SF64div SFdiv];
    try (now rewrite xorb_false_r); try reflexivity.
  now apply SFdiv_one_finite.
Qed.

(** ** The FX normalizer *)

(** C4: the rate is 1.0 for HK, 1.03 for MC, 4.02 for TW and 1.0 for any
    other country; each of the nine normalized monetary fields is the raw
    value divided by that rate, hence the raw value itself for HK and for an
    unrecognized country, raw / 1.03 for MC and raw / 4.02 for TW. *)
Theorem applyFxNormalization_rate_table (row : InventoryRowRaw.t) (si : SeasonInfo) :
  let r := applyFxNormalization row si in
  let c := InventoryRowRaw.country row in
  InventoryRow.fxRate r =
    (if decide (c = "HK") then 1
     else if decide (c = "MC") then 1.03
     else if decide (c = "TW") then 4.02
     else 1)%float /\
  Forall (fun p => p.1 = (p.2 / InventoryRow.fxRate r)%float) (InventoryRow.monetary r row) /\
  (c <> "MC" /\ c <> "TW" -> Forall (fun p => p.1 = p.2) (InventoryRow.monetary r row)) /\
  (c = "MC" -> Forall (fun p => p.1 = (p.2 / 1.03)%float) (InventoryRow.monetary r row)) /\
  (c = "TW" -> Forall (fun p => p.1 = (p.2 / 4.02)%float) (InventoryRow.monetary r row)).
Proof.
  cbv zeta. unfold applyFxNormalization, InventoryRow.monetary.
  cbn [InventoryRow.fxRate InventoryRow.grossSalesFx InventoryRow.netSalesFx
       InventoryRow.stockPriceFx InventoryRow.stockCostFx InventoryRow.acSalesGrossFx
       InventoryRow.netAcPPFx InventoryRow.acSalesCostFx InventoryRow.acSalesNetAmountFx
       InventoryRow.cogsFx].
  set (c := InventoryRowRaw.country row).
  destruct (String.eqb_spec c "HK") as [HK|HK];
    [|destruct (String.eqb_spec c "MC") as [MC|MC];
      [|destruct (String.eqb_spec c "TW") as [TW|TW]]];
    repeat case_decide; try congruence;
    (split; [reflexivity|]);
    (split; [repeat constructor; cbn [fst snd]; now rewrite ?float_div_one|]);
    (split; [intros [? ?]; try congruence;
             repeat constructor; cbn [fst snd]; now rewrite ?float_div_one|]);
    split; intros ?; try congruence; repeat constructor.
Qed.

(** C9: the normalized row carries every field of the raw record unchanged,
    and the season info it was given; what it adds is the FX rate, the nine
    normalized fields and the discount rate. *)
Theorem applyFxNormalization_preserves_raw (row : InventoryRowRaw.t) (si : SeasonInfo) :
  InventoryRow.toRaw (applyFxNormalization row si) = row /\
  InventoryRow.seasonInfo (applyFxNormalization row si) = si.
Proof. destruct row. split; reflexivity. Qed.

(** ** The discount rate *)

(** C5, as it is stated, fails on its example: at normalized gross 1000 and
    net 900 the code computes [1 - 900 / 1000] in binary64, which is
    0.09999999999999998 and not 0.1. *)
Lemma discount_example_is_not_one_tenth :
  InventoryRow.grossSalesFx (applyFxNormalization (sampleRaw "HK" "24F" "1000" "900" CY)
                               (parseSeason (Some "24F") 25)) = 1000%float /\
  InventoryRow.netSalesFx (applyFxNormalization (sampleRaw "HK" "24F" "1000" "900" CY)
                             (parseSeason (Some "24F") 25)) = 900%float /\
  InventoryRow.discountRateMonth
    (applyFxNormalization (sampleRaw "HK" "24F" "1000" "900" CY)
       (parseSeason (Some "24F") 25)) <> Some 0.1%float.
Proof.
  split; [vm_compute; reflexivity|]. split; [vm_compute; reflexivity|].
  intros H.
  apply (f_equal (fun o => match o with Some x => PrimFloat.eqb x 0.1 | None => false end)) in H.
  vm_compute in H. discriminate H.
Qed.

(** C5, amended: on inventory rows and graph rows alike the discount rate
    is [1 - net / gross] on the normalized amounts, in binary64 arithmetic,
    when the normalized gross sales is strictly positive, and null
    otherwise: so null, not 0, when the gross is zero or negative, whatever
    the net.  At gross 1000 and net 900 it is 0.09999999999999998, within
    1e-16 of 0.1. *)
Theorem discount_rate_binary64 :
  (forall row si,
     let r := applyFxNormalization row si in
     InventoryRow.discountRateMonth r =
       if (0 <? InventoryRow.grossSalesFx r)%float
       then Some (1 - InventoryRow.netSalesFx r / InventoryRow.grossSalesFx r)%float
       else None) /\
  (forall raw,
     let g := normalizeGraphDataRow raw in
     GraphDataRow.discountRate g =
       if (0 <? GraphDataRow.grossSalesFx g)%float
       then Some (1 - GraphDataRow.netSalesFx g / GraphDataRow.grossSalesFx g)%float
       else None) /\
  (forall row si,
     (InventoryRow.grossSalesFx (applyFxNormalization row si) <=? 0)%float = true ->
     InventoryRow.discountRateMonth (applyFxNormalization row si) = None) /\
  (forall raw,
     (GraphDataRow.grossSalesFx (normalizeGraphDataRow raw) <=? 0)%float = true ->
     GraphDataRow.discountRate (normalizeGraphDataRow raw) = None) /\
  (forall row si,
     InventoryRow.grossSalesFx (applyFxNormalization row si) = 1000%float ->
     InventoryRow.netSalesFx (applyFxNormalization row si) = 900%float ->
     InventoryRow.discountRateMonth (applyFxNormalization row si)
       = Some 0.09999999999999998%float) /\
  (abs (0.09999999999999998 - 0.1) <? 1e-16)%float = true.
Proof.
  assert (Hle : forall x : float, (x <=? 0)%float = true -> (0 <? x)%float = false).
  { intros x. rewrite leb_spec, ltb_spec. unfold SFleb, SFltb.
    change (Prim2SF 0) with (S754_zero false).
    destruct (Prim2SF x) as [s|[]| |[] m e]; cbn; congruence. }
  assert (Hinv : forall row si,
     let r := applyFxNormalization row si in
     InventoryRow.discountRateMonth r =
       if (0 <? InventoryRow.grossSalesFx r)%float
       then Some (1 - InventoryRow.netSalesFx r / InventoryRow.grossSalesFx r)%float
       else None) by reflexivity.
  assert (Hgraph : forall raw,
     let g := normalizeGraphDataRow raw in
     GraphDataRow.discountRate g =
       if (0 <? GraphDataRow.grossSalesFx g)%float
       then Some (1 - GraphDataRow.netSalesFx g / GraphDataRow.grossSalesFx g)%float
       else None) by reflexivity.
  split; [exact Hinv|]. split; [exact Hgraph|].
  split; [intros row si H; rewrite Hinv; cbv zeta; now rewrite (Hle _ H)|].
  split; [intros raw H; rewrite Hgraph; cbv zeta; now rewrite (Hle _ H)|].
  split; [|vm_compute; reflexivity].
  intros row si Hg Hn. rewrite Hinv. cbv zeta. rewrite Hg, Hn. vm_compute. reflexivity.
Qed.

(** ** The primitive parsers *)

Lemma removeAll_twice p q s :
  JS.removeAll q (JS.removeAll p s) = JS.removeAll (fun c => p c || q c) s.
Proof.
  induction s as [|c r IH]; [reflexivity|]. simpl.
  destruct (p c); simpl; [exact IH|]. destruct (q c); [exact IH|]. now rewrite IH.
Qed.

Lemma removeAll_trimStart p s :
  (forall c, JS.isWhiteSpace c = true -> p c = true) ->
  JS.removeAll p (JS.trimStart s) = JS.removeAll p s.
Proof.
  intros Hp. induction s as [|c r IH]; [reflexivity|]. simpl.
  destruct (JS.isWhiteSpace c) eqn:W; [|reflexivity]. now rewrite (Hp _ W).
Qed.

Lemma removeAll_trimEnd p s :
  (forall c, JS.isWhiteSpace c = true -> p c = true) ->
  JS.removeAll p (JS.trimEnd s) = JS.removeAll p s.
Proof.
  intros Hp. induction s as [|c r IH]; [reflexivity|]. simpl.
  destruct (JS.trimEnd r) as [|d t] eqn:E.
  - destruct (JS.isWhiteSpace c) eqn:W; simpl.
    + now rewrite (Hp _ W).
    + now rewrite <- IH.
  - simpl in *. now rewrite IH.
Qed.

(** The text handed to [parseFloat] is the input without its commas and
    white space, wherever they stand. *)
Lemma parseNumber_cleaned s :
  JS.removeAll JS.isWhiteSpace (JS.removeAll (Ascii.eqb ","%char) (JS.trim s))
  = JS.removeAll stripped s.
Proof.
  rewrite removeAll_twice. unfold JS.trim.
  assert (Hp : forall c, JS.isWhiteSpace c = true ->
                 Ascii.eqb ","%char c || JS.isWhiteSpace c = true).
  { intros c ->. apply orb_true_r. }
  now rewrite (removeAll_trimEnd _ _ Hp), (removeAll_trimStart _ _ Hp).
Qed.

Lemma parseFloat_not_numeric c r :
  numericStart c = false -> JS.isWhiteSpace c = false ->
  JS.parseFloat (String c r) = nan.
Proof.
  destruct c as [[] [] [] [] [] [] [] []]; intros H W;
    first [discriminate H | discriminate W | reflexivity].
Qed.

(** C7: [parseNumber] is a total function that returns a number on every
    input, never NaN: 0 for null or undefined, for the empty string and for
    text with no numeric prefix once commas and white space are gone, and
    otherwise the value [parseFloat] reads in the input stripped of every
    comma and every white-space character. *)
Theorem parseNumber_total_and_tolerant :
  parseNumber None = 0%float /\
  parseNumber (Some "") = 0%float /\
  (forall v, JS.isNaN (parseNumber v) = false) /\
  (forall s, parseNumber (Some s) =
     let parsed := JS.parseFloat (JS.removeAll stripped s) in
     if JS.isNaN parsed then 0%float else parsed) /\
  (forall s, match JS.removeAll stripped s with
             | String c _ => numericStart c = false
             | EmptyString => True
             end -> parseNumber (Some s) = 0%float) /\
  parseNumber (Some "abc") = 0%float /\
  parseNumber (Some "1,234.5") = 1234.5%float /\
  parseNumber (Some "  12 34 ") = 1234%float.
Proof.
  assert (Hs : forall s, parseNumber (Some s) =
     let parsed := JS.parseFloat (JS.removeAll stripped s) in
     if JS.isNaN parsed then 0%float else parsed).
  { intros [|c r]; [reflexivity|]. unfold parseNumber. cbn [JS.truthy negb].
    now rewrite parseNumber_cleaned. }
  split; [reflexivity|]. split; [reflexivity|].
  split.
  { intros [s|]; [|reflexivity]. rewrite Hs. cbv zeta.
    destruct (JS.isNaN (JS.parseFloat _)) eqn:E; [reflexivity|exact E]. }
  split; [exact Hs|].
  split; [|repeat split; vm_compute; reflexivity].
  intros s H. rewrite Hs. cbv zeta.
  destruct (JS.removeAll stripped s) as [|c r] eqn:E; [reflexivity|].
  assert (W : JS.isWhiteSpace c = false).
  { clear H. revert c r E. induction s as [|d s IH]; intros c r E; [discriminate|].
    simpl in E. destruct (stripped d) eqn:D; [eauto|].
    injection E as -> _. unfold stripped in D. now apply orb_false_iff in D as [_ ?]. }
  now rewrite (parseFloat_not_numeric _ _ H W).
Qed.

(** ** The graph row normalizer *)

Lemma in_allAscii c : In c allAscii.
Proof.
  unfold allAscii. rewrite <- (ascii_nat_embedding c).
  apply in_map, in_seq. pose proof (nat_ascii_bounded c). lia.
Qed.

(** The first two characters of a string. *)
Lemma substring_0_2 p :
  JS.substring p 0 2 =
    match p with
    | String c (String d _) => String c (String d "")
    | _ => p
    end.
Proof.
  unfold JS.substring, JS.len.
  destruct p as [|c [|d r]]; [reflexivity..|].
  cbn [String.length].
  replace (Z.to_nat _) with 0%nat by lia.
  replace (Z.to_nat _) with 2%nat by lia.
  destruct r; reflexivity.
Qed.

Lemma parses24_short :
  forallb (fun c =>
    implb (parses24 (String c "")) false &&
    forallb (fun d =>
      implb (parses24 (String c (String d "")))
            (Ascii.eqb c "2" && Ascii.eqb d "4")) allAscii) allAscii = true.
Proof. vm_compute. reflexivity. Qed.

(** A string of at most two characters parses to 24 only when it is "24". *)
Lemma parseInt_prefix_24 p :
  JS.parseInt (JS.substring p 0 2) = Some 24 <-> JS.substring p 0 2 = "24".
Proof.
  split; [|intros ->; reflexivity].
  rewrite substring_0_2. intros H.
  assert (H24 : forall s, JS.parseInt s = Some 24 -> parses24 s = true)
    by (intros s Hs; unfold parses24; now rewrite Hs).
  pose proof parses24_short as A. rewrite forallb_forall in A.
  destruct p as [|c [|d r]].
  - discriminate H.
  - specialize (A c (in_allAscii c)). apply andb_true_iff in A as [A _].
    rewrite (H24 _ H) in A. discriminate A.
  - specialize (A c (in_allAscii c)). apply andb_true_iff in A as [_ A].
    rewrite forallb_forall in A. specialize (A d (in_allAscii d)).
    rewrite (H24 _ H) in A. cbn [implb] in A.
    apply andb_true_iff in A as [Ac Ad].
    apply Ascii.eqb_eq in Ac, Ad. now subst.
Qed.

(** C10: the reference fiscal year of a graph row is 24 when the first two
    characters of its Period parse to the integer 24, which is when they
    are "24", and 25 for every other Period; the season code is classified
    by [parseSeason] against that year, so two rows with the same season
    code and the same first two Period characters get the same season info,
    and the Year column plays no part. *)
Theorem normalizeGraphDataRow_reference_year (raw : GraphDataRowRaw.t) :
  GraphDataRow.seasonInfo (normalizeGraphDataRow raw) =
    parseSeason (Some (GraphDataRowRaw.Season_Code raw))
      (if decide (JS.parseInt (JS.substring (GraphDataRowRaw.Period raw) 0 2) = Some 24)
       then 24 else 25) /\
  (JS.parseInt (JS.substring (GraphDataRowRaw.Period raw) 0 2) = Some 24 <->
   JS.substring (GraphDataRowRaw.Period raw) 0 2 = "24") /\
  (forall raw',
     GraphDataRowRaw.Season_Code raw' = GraphDataRowRaw.Season_Code raw ->
     JS.substring (GraphDataRowRaw.Period raw') 0 2
       = JS.substring (GraphDataRowRaw.Period raw) 0 2 ->
     GraphDataRow.seasonInfo (normalizeGraphDataRow raw')
       = GraphDataRow.seasonInfo (normalizeGraphDataRow raw)) /\
  (forall y,
     GraphDataRow.seasonInfo (normalizeGraphDataRow (GraphDataRowRaw.withYear raw y))
       = GraphDataRow.seasonInfo (normalizeGraphDataRow raw)).
Proof.
  split; [|split; [apply parseInt_prefix_24|split]].
  - unfold normalizeGraphDataRow. cbn [GraphDataRow.seasonInfo].
    unfold bool_decide. now destruct (decide_rel _ _ _); destruct (decide _).
  - intros raw' Hs Hp. unfold normalizeGraphDataRow. cbn [GraphDataRow.seasonInfo].
    now rewrite Hs, Hp.
  - intros y. reflexivity.
Qed.

(** The examples in the comment of [normalizeGraphDataRow]. *)
Example normalizeGraphDataRow_examples :
  let row p y s :=
    normalizeGraphDataRow
      {| GraphDataRowRaw.Period := p; GraphDataRowRaw.Year := y;
         GraphDataRowRaw.Season_Code := s; GraphDataRowRaw.Gross_Sales := 0;
         GraphDataRowRaw.Net_Sales := 0; GraphDataRowRaw.Stock_Price := 0;
         GraphDataRowRaw.Stock_Cost := 0; GraphDataRowRaw.Country := "HK" |} in
  yearBucket (GraphDataRow.seasonInfo (row "2406" "2024" "24F")) = InSeason /\
  yearBucket (GraphDataRow.seasonInfo (row "2406" "2025" "23F")) = Y1 /\
  yearBucket (GraphDataRow.seasonInfo (row "2506" "2024" "24F")) = Y1 /\
  yearBucket (GraphDataRow.seasonInfo (row "2306" "2023" "23F")) = Y2 /\
  yearBucket (GraphDataRow.seasonInfo (row "" "2024" "24F")) = Y1.
Proof. repeat split. Qed.

(** ** The CSV tokenizer: the data-row stage *)

Lemma foldl_push_map {A B} (f : A -> B) (acc : list B) (l : list A) :
  foldl (fun acc x => push acc (f x)) acc l = (acc ++ map f l)%list.
Proof.
  revert acc. induction l as [|x l IH]; intros acc; simpl.
  - now rewrite app_nil_r.
  - rewrite IH. unfold push. now rewrite <- app_assoc.
Qed.

Lemma dataRows_from hs (acc : list Row) (lines : list string) :
  foldl (dataStep hs) acc lines =
    (acc ++ map (fun l => buildRow hs (tokens l))
              (List.filter (fun l => nonBlank l && accepts hs (tokens l)) lines))%list.
Proof.
  revert acc. induction lines as [|l lines IH]; intros acc; cbn [foldl List.filter map].
  - now rewrite app_nil_r.
  - rewrite IH. unfold dataStep, nonBlank, tokens.
    destruct (JS.truthy (JS.trim l)); cbn [negb andb]; [|reflexivity].
    destruct (accepts hs (parseCSVLine (JS.trim l))); [|reflexivity].
    unfold push. cbn [map]. now rewrite <- app_assoc.
Qed.

Lemma forEachHeader_absent vs (row : Row) index hs h :
  h ∉ hs -> forEachHeader vs row index hs !! h = row !! h.
Proof.
  revert row index. induction hs as [|h0 hs IH]; intros row index Hn; [reflexivity|].
  apply not_elem_of_cons in Hn as [Hne Hn]. cbn [forEachHeader].
  rewrite (IH _ _ Hn). unfold setProperty. case_decide; [reflexivity|].
  now apply lookup_insert_ne.
Qed.

Lemma forEachHeader_proto vs (row : Row) index hs :
  forEachHeader vs row index hs !! "__proto__" = row !! "__proto__".
Proof.
  revert row index. induction hs as [|h0 hs IH]; intros row index; [reflexivity|].
  cbn [forEachHeader]. rewrite IH. unfold setProperty. case_decide; [reflexivity|].
  now apply lookup_insert_ne.
Qed.

Lemma forEachHeader_last vs (row : Row) index hs i h :
  h <> "__proto__" ->
  hs !! i = Some h -> (forall j, (i < j)%nat -> hs !! j <> Some h) ->
  forEachHeader vs row index hs !! h = Some (default "" (vs !! (index + i)%nat)).
Proof.
  intros Hp.
  revert row index i. induction hs as [|h0 hs IH]; intros row index i Hi Hlast; [discriminate|].
  cbn [forEachHeader]. destruct i as [|i].
  - injection Hi as ->. rewrite forEachHeader_absent.
    + rewrite Nat.add_0_r. unfold setProperty. case_decide; [congruence|].
      apply lookup_insert_eq.
    + intros Hin. apply list_elem_of_lookup in Hin as [j Hj].
      apply (Hlast (S j)); [lia|exact Hj].
  - rewrite (IH _ (S index) i Hi).
    + now rewrite Nat.add_succ_r.
    + intros j Hj. apply (Hlast (S j)). lia.
Qed.

Lemma forEachHeader_values vs vs' (row : Row) index hs :
  (forall k, (index <= k < index + length hs)%nat -> vs !! k = vs' !! k) ->
  forEachHeader vs row index hs = forEachHeader vs' row index hs.
Proof.
  revert row index. induction hs as [|h0 hs IH]; intros row index Hk; [reflexivity|].
  cbn [forEachHeader]. rewrite (Hk index) by (simpl; lia).
  apply IH. intros k Hr. apply Hk. simpl. lia.
Qed.

(** C6, as it is stated, fails on a header named [__proto__]: the
    assignment [row[header] = value] stores no property under that name, so
    the row of the file [__proto__,b / 1,2] has the single key [b], and the
    header [__proto__] is not mapped to the field at its position. *)
Lemma buildRow_proto_header_not_stored :
  parseCSV ("__proto__,b" ++ String JS.LF "1,2") = [ <["b" := "2"]> ∅ ] /\
  accepts ["__proto__"; "b"] ["1"; "2"] = true /\
  buildRow ["__proto__"; "b"] ["1"; "2"] !! "__proto__" = None /\
  buildRow ["__proto__"; "b"] ["1"; "2"] !! "__proto__"
    <> Some (default "" (["1"; "2"] !! 0%nat)).
Proof. repeat split. discriminate. Qed.

(** C6, amended: the rows [parseCSV] returns are those of the non-blank
    lines after the header whose field count is at least the header count
    minus one, in order; an accepted row maps each cleaned header other
    than [__proto__] to the field at its position (the last position of a
    repeated header), and to the empty string where the line has no field
    there; it has no key [__proto__] and no key that is not a header; a line
    two or more fields short adds nothing to the output; a line with more
    fields than headers is accepted and its extra fields are left out. *)
Theorem parseCSV_data_row_stage :
  (forall csvText,
     let lines := List.filter nonBlank (JS.splitLines csvText) in
     let hs := (headerStage lines).1 in
     let headerEndIndex := (headerStage lines).2 in
     parseCSV csvText =
       if Z.of_nat (length lines) <? 2 then []
       else map (fun l => buildRow hs (tokens l))
              (List.filter (fun l => nonBlank l && accepts hs (tokens l))
                 (drop headerEndIndex lines))) /\
  (forall hs vs,
     accepts hs vs = true <-> Z.of_nat (length hs) - 1 <= Z.of_nat (length vs)) /\
  (forall hs vs i h,
     h <> "__proto__" ->
     hs !! i = Some h -> (forall j, (i < j)%nat -> hs !! j <> Some h) ->
     buildRow hs vs !! h = Some (default "" (vs !! i))) /\
  (forall hs vs i h,
     h <> "__proto__" ->
     hs !! i = Some h -> (forall j, (i < j)%nat -> hs !! j <> Some h) ->
     (length vs <= i)%nat -> buildRow hs vs !! h = Some "") /\
  (forall hs vs, buildRow hs vs !! "__proto__" = None) /\
  (forall hs vs h, h ∉ hs -> buildRow hs vs !! h = None) /\
  (forall hs rows l,
     (length (tokens l) + 2 <= length hs)%nat -> dataStep hs rows l = rows) /\
  (forall hs vs,
     (length hs < length vs)%nat ->
     accepts hs vs = true /\ buildRow hs vs = buildRow hs (take (length hs) vs)).
Proof.
  repeat apply conj.
  - intros csvText. cbv zeta. unfold parseCSV.
    destruct (Z.of_nat _ <? 2); [reflexivity|].
    destruct (headerStage _) as [hs k]. cbn [fst snd].
    unfold dataRows. now rewrite dataRows_from.
  - intros hs vs. unfold accepts. apply Z.leb_le.
  - intros hs vs i h Hp Hi Hlast. unfold buildRow.
    now rewrite (forEachHeader_last vs ∅ 0 hs i h Hp Hi Hlast).
  - intros hs vs i h Hp Hi Hlast Hshort. unfold buildRow.
    rewrite (forEachHeader_last vs ∅ 0 hs i h Hp Hi Hlast). cbn [Nat.add].
    now rewrite (lookup_ge_None_2 vs i Hshort).
  - intros hs vs. unfold buildRow. now rewrite forEachHeader_proto.
  - intros hs vs h Hn. unfold buildRow. now rewrite forEachHeader_absent.
  - intros hs rows l Hshort. unfold dataStep. destruct (negb _); [reflexivity|].
    fold (tokens l). replace (accepts hs (tokens l)) with false; [reflexivity|].
    symmetry. unfold accepts. apply Z.leb_gt. lia.
  - intros hs vs Hlong. split.
    + unfold accepts. apply Z.leb_le. lia.
    + unfold buildRow. apply forEachHeader_values. intros k Hk.
      symmetry. apply lookup_take_lt. lia.
Qed.

(** The tokenizer example of section 8 of the specification: a header, a
    row with a quoted field holding a comma, and a row one field short. *)
Example parseCSV_example :
  parseCSV ("name,qty" ++ String JS.LF
            (String JS.dquote "Acme, Inc." ++ String JS.dquote ",100" ++ String JS.LF "Bob"))
  = [ <["qty" := "100"]> (<["name" := "Acme, Inc."]> ∅);
      <["qty" := ""]> (<["name" := "Bob"]> ∅) ].
Proof. vm_compute. reflexivity. Qed.

(** A header of three columns: a row one field short is kept with an empty
    last cell, a row two fields short is dropped, and a row with five fields
    is kept without its last two. *)
Example parseCSV_tolerance :
  parseCSV ("a,b,c" ++ String JS.LF ("1,2" ++ String JS.LF ("1" ++ String JS.LF "1,2,3,4,5")))
  = [ <["c" := ""]> (<["b" := "2"]> (<["a" := "1"]> ∅));
      <["c" := "3"]> (<["b" := "2"]> (<["a" := "1"]> ∅)) ].
Proof. vm_compute. reflexivity. Qed.

(** ** The inventory orchestrators *)

Section PipelineFacts.

Variable toUpperCase : string -> string.
Variable fetch : string -> option Response.

Lemma normalizeRow_seasonInfo src y row :
  InventoryRow.seasonInfo (normalizeRow toUpperCase src y row)
  = parseSeason (Some (parseString (row !! "SEASON"))) y.
Proof. reflexivity. Qed.

(** [loadAndNormalizeData] classifies the rows of both files against the
    one [currentFwYear] it is given. *)
Lemma loadAndNormalizeData_rows pyPath cyPath Y :
  loadAndNormalizeData toUpperCase fetch pyPath cyPath Y =
    match loadCSVFile fetch pyPath, loadCSVFile fetch cyPath with
    | Some pyCsv, Some cyCsv =>
        Some (map (normalizeRow toUpperCase PY Y) (parseCSV pyCsv) ++
              map (normalizeRow toUpperCase CY Y) (parseCSV cyCsv))%list
    | _, _ => None
    end.
Proof.
  unfold loadAndNormalizeData.
  destruct (loadCSVFile fetch pyPath), (loadCSVFile fetch cyPath); try reflexivity.
  now rewrite !foldl_push_map.
Qed.

(** [loadData] of the dashboard classifies prior-year rows against 24 and
    current-year rows against 25, whatever its [currentFwYear] property. *)
Lemma loadData_rows props py cy :
  pyRowsRaw props = Some py -> cyRowsRaw props = Some cy ->
  loadData toUpperCase fetch props =
    Some (map (normalizeRow toUpperCase PY 24) py ++
          map (normalizeRow toUpperCase CY 25) cy)%list.
Proof.
  intros Hpy Hcy. unfold loadData. rewrite Hpy, Hcy.
  now rewrite !foldl_push_map.
Qed.

End PipelineFacts.

(** C3 fails on [loadAndNormalizeData]: with reference year 25 it reads the
    prior-year file against 25 as well, not against 24, so the prior-year
    row of season 24F lands in one-year-past and passes the off-season
    filter, like the current-year row.  [loadData] of the dashboard, on the
    same two files, reads the prior-year row against 24: current/in-season,
    filtered out. *)
Theorem loadAndNormalizeData_reads_PY_against_Y :
  (forall toUpperCase fetch pyPath cyPath Y rows,
     loadAndNormalizeData toUpperCase fetch pyPath cyPath Y = Some rows ->
     Forall (fun r => InventoryRow.seasonInfo r
                      = parseSeason (Some (InventoryRow.season r)) Y) rows) /\
  map summary <$> loadAndNormalizeData upperAscii sampleFetch "/py.csv" "/cy.csv" 25
    = Some [(PY, Y1, true); (CY, Y1, true)] /\
  map summary <$>
    loadData upperAscii sampleFetch
      {| pyFilePath := Some "/py.csv"; cyFilePath := Some "/cy.csv";
         pyRowsRaw := None; cyRowsRaw := None; currentFwYear := 25 |}
    = Some [(PY, InSeason, false); (CY, Y1, true)] /\
  map summary <$>
    loadData upperAscii sampleFetch
      {| pyFilePath := None; cyFilePath := None;
         pyRowsRaw := Some (parseCSV pyCsvText); cyRowsRaw := Some (parseCSV cyCsvText);
         currentFwYear := 25 |}
    = Some [(PY, InSeason, false); (CY, Y1, true)].
Proof.
  split; [|repeat split; vm_compute; reflexivity].
  intros up fetch pyPath cyPath Y rows. rewrite loadAndNormalizeData_rows.
  destruct (loadCSVFile fetch pyPath), (loadCSVFile fetch cyPath); try discriminate.
  intros [= <-]. apply Forall_app. split; apply Forall_map, Forall_true; reflexivity.
Qed.

(** * Further properties of the code *)

#[local] Set Warnings "-clear-no-such-hyp".

(** ** White space *)

Lemma trimEnd_idempotent s : JS.trimEnd (JS.trimEnd s) = JS.trimEnd s.
Proof.
  induction s as [|c r IH]; [reflexivity|]. cbn [JS.trimEnd].
  destruct (JS.trimEnd r) as [|d t] eqn:E.
  - destruct (JS.isWhiteSpace c) eqn:W; [reflexivity|]. cbn [JS.trimEnd]. now rewrite W.
  - change (JS.trimEnd (String c (String d t)))
      with (match JS.trimEnd (String d t) with
            | EmptyString => if JS.isWhiteSpace c then EmptyString else String c EmptyString
            | r' => String c r'
            end).
    now rewrite IH.
Qed.

Lemma trimEnd_head c r :
  JS.isWhiteSpace c = false -> exists t, JS.trimEnd (String c r) = String c t.
Proof.
  intros W. cbn [JS.trimEnd]. destruct (JS.trimEnd r); [rewrite W|]; eauto.
Qed.

Lemma trimStart_shape s :
  JS.trimStart s = "" \/
  exists c r, JS.trimStart s = String c r /\ JS.isWhiteSpace c = false.
Proof.
  induction s as [|c r IH]; [now left|]. cbn [JS.trimStart].
  destruct (JS.isWhiteSpace c) eqn:W; [exact IH|]. right. eauto.
Qed.

Lemma trim_idempotent s : JS.trim (JS.trim s) = JS.trim s.
Proof.
  unfold JS.trim. destruct (trimStart_shape s) as [->|(c & r & -> & W)]; [reflexivity|].
  destruct (trimEnd_head c r W) as [t Ht]. rewrite Ht.
  rewrite (trimStart_head_not_ws _ _ W), <- Ht. apply trimEnd_idempotent.
Qed.

Lemma trimEnd_last s c :
  Spec.lastChar (JS.trimEnd s) = Some c -> JS.isWhiteSpace c = false.
Proof.
  induction s as [|d r IH]; [discriminate|]. cbn [JS.trimEnd].
  destruct (JS.trimEnd r) as [|e t] eqn:E.
  - destruct (JS.isWhiteSpace d) eqn:W; [discriminate|]. now intros [= <-].
  - intros H. apply IH. exact H.
Qed.

(** X1: [parseString] returns a string without white space at either end,
    and applying it to its own result changes nothing. *)
Theorem parseString_trimmed (value : option string) :
  parseString (Some (parseString value)) = parseString value /\
  JS.startsWith (parseString value) " " = false /\
  (forall c r, parseString value = String c r -> JS.isWhiteSpace c = false) /\
  (forall c, Spec.lastChar (parseString value) = Some c -> JS.isWhiteSpace c = false).
Proof.
  unfold parseString. change (default "" (Some ?x)) with x.
  assert (Hhead : forall c r, JS.trim (default "" value) = String c r ->
                              JS.isWhiteSpace c = false).
  { intros c r. unfold JS.trim.
    destruct (trimStart_shape (default "" value)) as [->|(c' & r' & -> & W)]; [discriminate|].
    destruct (trimEnd_head c' r' W) as [t ->]. now intros [= <- _]. }
  repeat split.
  - apply trim_idempotent.
  - destruct (JS.trim (default "" value)) as [|c r] eqn:E; [reflexivity|].
    cbn [JS.startsWith]. pose proof (Hhead c r eq_refl) as W.
    destruct (Ascii.eqb_spec c " "); [subst; discriminate W|reflexivity].
  - exact Hhead.
  - intros c. apply trimEnd_last.
Qed.

(** X2: classifying a decoded season column is classifying the raw cell:
    [parseSeason] after [parseString] is [parseSeason], and [parseSeason]
    maps the code it stored to the same record. *)
Theorem parseSeason_after_parseString (value : option string) (cur : Z) :
  parseSeason (Some (parseString value)) cur = parseSeason value cur /\
  parseSeason (Some (seasonCode (parseSeason value cur))) cur = parseSeason value cur.
Proof.
  assert (H : forall s, parseSeason (Some (JS.trim s)) cur = parseSeason (Some s) cur).
  { intros s. unfold parseSeason. change (default "" (Some ?x)) with x.
    now rewrite trim_idempotent. }
  split.
  - unfold parseString. rewrite H. now destruct value.
  - assert (E : seasonCode (parseSeason value cur) = JS.trim (default "" value)).
    { unfold parseSeason. destruct (JS.trim (default "" value)) eqn:T; [reflexivity|].
      cbn [JS.truthy negb seasonCode]. reflexivity. }
    rewrite E, H. now destruct value.
Qed.

(** ** The tokenizer of one line *)

Lemma string_app_cons x (a b : string) : (String x a ++ b = String x (a ++ b))%string.
Proof. reflexivity. Qed.

Lemma string_app_assoc (a b c : string) : ((a ++ b) ++ c = a ++ (b ++ c))%string.
Proof.
  induction a as [|x a IH]; [reflexivity|].
  rewrite !string_app_cons. f_equal. exact IH.
Qed.

Lemma string_app_nil_r (a : string) : (a ++ "" = a)%string.
Proof.
  induction a as [|x a IH]; [reflexivity|].
  rewrite string_app_cons. f_equal. exact IH.
Qed.

Lemma parseCSVLine_from_values vs cur q line :
  parseCSVLine_from vs cur q line = (vs ++ parseCSVLine_from [] cur q line)%list.
Proof.
  assert (H : forall n line, (String.length line <= n)%nat -> forall vs cur q,
    parseCSVLine_from vs cur q line = (vs ++ parseCSVLine_from [] cur q line)%list).
  { clear. induction n as [|n IH]; intros line Hn vs cur q.
    - destruct line; [reflexivity|simpl in Hn; lia].
    - destruct line as [|c r]; [reflexivity|]. simpl in Hn.
      cbn [parseCSVLine_from].
      destruct (Ascii.eqb c JS.dquote).
      + destruct r as [|d r'].
        * apply IH. simpl. lia.
        * simpl in Hn. destruct (q && Ascii.eqb d JS.dquote); apply IH; simpl; lia.
      + destruct (Ascii.eqb c JS.comma && negb q).
        * rewrite (IH r) by lia. rewrite (IH r ltac:(lia) (push [] _)).
          unfold push. now rewrite app_assoc.
        * apply IH. lia. }
  apply (H (String.length line)). lia.
Qed.

(** A stretch without double quotes, and without commas unless a quoted
    field is open, goes to the current value as it is. *)
Lemma parseCSVLine_from_plain f vs cur q rest :
  hasChar JS.dquote f = false ->
  q = true \/ hasChar JS.comma f = false ->
  parseCSVLine_from vs cur q (f ++ rest) = parseCSVLine_from vs (cur ++ f) q rest.
Proof.
  revert cur. induction f as [|c f IH]; intros cur Hq Hc.
  - now rewrite string_app_nil_r.
  - cbn [hasChar] in Hq, Hc. apply orb_false_iff in Hq as [Hq1 Hq2].
    rewrite string_app_cons. cbn [parseCSVLine_from]. rewrite Hq1.
    assert (Hcomma : Ascii.eqb c JS.comma && negb q = false).
    { destruct Hc as [->|Hc]; [apply andb_false_r|].
      apply orb_false_iff in Hc as [-> _]. reflexivity. }
    rewrite Hcomma, IH; [|exact Hq2|].
    + f_equal. unfold JS.charString. now rewrite string_app_assoc.
    + destruct Hc as [?|Hc]; [now left|right]. now apply orb_false_iff in Hc as [_ ?].
Qed.

Lemma parseCSVLine_from_unquoted line vs cur :
  hasChar JS.dquote line = false ->
  parseCSVLine_from vs cur false line
  = (vs ++ map JS.trim (splitOnFrom JS.comma cur line))%list.
Proof.
  revert vs cur. induction line as [|c r IH]; intros vs cur H; [reflexivity|].
  cbn [hasChar] in H. apply orb_false_iff in H as [H1 H2].
  cbn [parseCSVLine_from splitOnFrom]. rewrite H1, andb_true_r.
  destruct (Ascii.eqb c JS.comma).
  - rewrite (IH _ _ H2). unfold push. cbn [map]. now rewrite <- app_assoc.
  - now apply IH.
Qed.

(** X3: on a line without double quotes, [parseCSVLine] is the split of the
    line at its commas with every piece trimmed; so such a line has one
    field more than it has commas. *)
Theorem parseCSVLine_unquoted (line : string) :
  hasChar JS.dquote line = false ->
  parseCSVLine line = map JS.trim (splitOn JS.comma line).
Proof. intros H. unfold parseCSVLine, splitOn. now rewrite parseCSVLine_from_unquoted. Qed.

Lemma parseCSVLine_unquoted_witness :
  hasChar JS.dquote " a , b,,c " = false /\
  parseCSVLine " a , b,,c " = map JS.trim (splitOn JS.comma " a , b,,c ").
Proof. split; [reflexivity|apply (parseCSVLine_unquoted " a , b,,c "); reflexivity]. Defined.

Lemma parseCSVLine_from_trimmed n :
  forall line, (String.length line <= n)%nat -> forall vs cur q,
  Forall (fun f => JS.trim f = f) vs ->
  Forall (fun f => JS.trim f = f) (parseCSVLine_from vs cur q line) /\
  (length vs < length (parseCSVLine_from vs cur q line))%nat.
Proof.
  assert (Hpush : forall vs cur, Forall (fun f => JS.trim f = f) vs ->
            Forall (fun f => JS.trim f = f) (push vs (JS.trim cur)) /\
            (length vs < length (push vs (JS.trim cur)))%nat).
  { intros vs cur Hvs. unfold push. split.
    - apply Forall_app. split; [exact Hvs|]. repeat constructor. apply trim_idempotent.
    - rewrite length_app. simpl. lia. }
  induction n as [|n IH]; intros line Hn vs cur q Hvs.
  - destruct line; [apply Hpush, Hvs|simpl in Hn; lia].
  - destruct line as [|c r]; [apply Hpush, Hvs|]. simpl in Hn.
    cbn [parseCSVLine_from].
    destruct (Ascii.eqb c JS.dquote).
    + destruct r as [|d r'].
      * apply IH; [simpl; lia|exact Hvs].
      * simpl in Hn. destruct (q && Ascii.eqb d JS.dquote); (apply IH; [simpl; lia|exact Hvs]).
    + destruct (Ascii.eqb c JS.comma && negb q).
      * destruct (Hpush vs cur Hvs) as [Hp Hl].
        destruct (IH r ltac:(lia) (push vs (JS.trim cur)) "" q Hp) as [? ?].
        split; [assumption|lia].
      * apply IH; [lia|exact Hvs].
Qed.

(** X4: every line has at least one field, and every field [parseCSVLine]
    returns is trimmed, quoted or not. *)
Theorem parseCSVLine_fields_trimmed (line : string) :
  parseCSVLine line <> [] /\
  Forall (fun f => JS.trim f = f) (parseCSVLine line).
Proof.
  destruct (parseCSVLine_from_trimmed (String.length line) line (Nat.le_refl _)
              [] "" false ltac:(constructor)) as [H1 H2].
  unfold parseCSVLine. split; [|exact H1].
  destruct (parseCSVLine_from [] "" false line); [simpl in H2; lia|discriminate].
Qed.

Lemma parseCSVLine_from_concat fs vs :
  fs <> [] ->
  Forall (fun f => JS.trim f = f /\ hasChar JS.comma f = false
                   /\ hasChar JS.dquote f = false) fs ->
  parseCSVLine_from vs "" false (String.concat "," fs) = (vs ++ fs)%list.
Proof.
  revert vs. induction fs as [|f fs IH]; intros vs Hne Hall; [congruence|].
  apply Forall_cons in Hall as [(Ht & Hc & Hq) Hall].
  destruct fs as [|g fs].
  - replace (String.concat "," [f]) with (f ++ "")%string by apply string_app_nil_r.
    rewrite parseCSVLine_from_plain by auto.
    change ("" ++ f)%string with f.
    cbn [parseCSVLine_from]. unfold push. now rewrite Ht.
  - change (String.concat "," (f :: g :: fs))
      with (f ++ String JS.comma (String.concat "," (g :: fs)))%string.
    rewrite parseCSVLine_from_plain by auto.
    change ("" ++ f)%string with f.
    cbn [parseCSVLine_from].
    change (Ascii.eqb JS.comma JS.dquote) with false.
    change (Ascii.eqb JS.comma JS.comma && negb false) with true. cbv iota.
    rewrite IH by (auto; discriminate). unfold push. rewrite Ht.
    now rewrite <- app_assoc.
Qed.

(** X5: round trip of a plain line: fields that are trimmed and hold no
    comma and no double quote, joined by commas, are tokenized back to the
    same fields. *)
Theorem parseCSVLine_join_round_trip (fs : list string) :
  fs <> [] ->
  Forall (fun f => JS.trim f = f /\ hasChar JS.comma f = false
                   /\ hasChar JS.dquote f = false) fs ->
  parseCSVLine (String.concat "," fs) = fs.
Proof. intros Hne Hall. unfold parseCSVLine. now rewrite parseCSVLine_from_concat. Qed.

Lemma parseCSVLine_join_round_trip_witness :
  ["2512"; "HK"; ""; "MLB KIDS"] <> [] /\
  Forall (fun f => JS.trim f = f /\ hasChar JS.comma f = false
                   /\ hasChar JS.dquote f = false) ["2512"; "HK"; ""; "MLB KIDS"] /\
  parseCSVLine (String.concat "," ["2512"; "HK"; ""; "MLB KIDS"])
  = ["2512"; "HK"; ""; "MLB KIDS"].
Proof.
  split; [discriminate|]. split; [repeat constructor|].
  apply (parseCSVLine_join_round_trip ["2512"; "HK"; ""; "MLB KIDS"]);
    [discriminate|repeat constructor].
Defined.

(** X6: a quoted field without inner double quotes is taken whole, commas
    included, and trimmed, whether it ends the line or a comma follows it. *)
Theorem parseCSVLine_quoted_field (f rest : string) :
  hasChar JS.dquote f = false ->
  parseCSVLine (String JS.dquote (f ++ JS.charString JS.dquote)) = [JS.trim f] /\
  parseCSVLine (String JS.dquote (f ++ String JS.dquote (String JS.comma rest)))
  = JS.trim f :: parseCSVLine rest.
Proof.
  intros Hq.
  assert (Hopen : forall tail,
    parseCSVLine (String JS.dquote (f ++ String JS.dquote tail))
    = parseCSVLine_from [] f true (String JS.dquote tail)).
  { intros tail. unfold parseCSVLine. cbn [parseCSVLine_from].
    change (Ascii.eqb JS.dquote JS.dquote) with true. cbv iota.
    transitivity (parseCSVLine_from [] "" true (f ++ String JS.dquote tail)).
    - now destruct (f ++ String JS.dquote tail)%string.
    - now rewrite parseCSVLine_from_plain by auto. }
  split.
  - unfold JS.charString. rewrite Hopen. reflexivity.
  - rewrite Hopen. cbn [parseCSVLine_from].
    change (Ascii.eqb JS.dquote JS.dquote) with true.
    change (Ascii.eqb JS.comma JS.dquote) with false.
    change (Ascii.eqb JS.comma JS.comma) with true.
    cbn [andb negb]. rewrite parseCSVLine_from_values. reflexivity.
Qed.

Lemma parseCSVLine_quoted_field_witness :
  hasChar JS.dquote "Acme, Inc." = false /\
  parseCSVLine (String JS.dquote ("Acme, Inc." ++ String JS.dquote (String JS.comma "100")))
  = [JS.trim "Acme, Inc."; "100"].
Proof.
  split; [reflexivity|].
  exact (proj2 (parseCSVLine_quoted_field "Acme, Inc." "100" eq_refl)).
Defined.

(** ** The tokenizer of a file *)

Lemma splitLinesFrom_no_LF s cur :
  hasChar JS.LF s = false -> JS.splitLinesFrom cur s = [(cur ++ s)%string].
Proof.
  revert cur. induction s as [|c r IH]; intros cur H.
  - now rewrite string_app_nil_r.
  - cbn [hasChar] in H. apply orb_false_iff in H as [H1 H2].
    cbn [JS.splitLinesFrom]. rewrite H1. destruct r as [|c2 r'].
    + reflexivity.
    + assert (H3 : Ascii.eqb c2 JS.LF = false)
        by (cbn [hasChar] in H2; now apply orb_false_iff in H2 as [? _]).
      rewrite H3, andb_false_r, (IH _ H2). unfold JS.charString.
      now rewrite string_app_assoc.
Qed.

(** X7: a text without a line feed, be it empty, blank or a lone header
    line, has no data row: [parseCSV] returns the empty list. *)
Theorem parseCSV_single_line (csvText : string) :
  hasChar JS.LF csvText = false -> parseCSV csvText = [].
Proof.
  intros H. unfold parseCSV, JS.splitLines. rewrite (splitLinesFrom_no_LF _ _ H).
  cbn [List.filter]. now destruct (nonBlank _).
Qed.

Lemma parseCSV_single_line_witness :
  hasChar JS.LF "period,Country,SEASON" = false /\
  parseCSV "period,Country,SEASON" = [].
Proof. split; [reflexivity|apply (parseCSV_single_line "period,Country,SEASON"); reflexivity]. Defined.

Lemma forEachHeader_dom vs (row : Row) index hs :
  dom (forEachHeader vs row index hs)
  = dom row ∪ (list_to_set hs ∖ {["__proto__"]}).
Proof.
  revert row index. induction hs as [|h hs IH]; intros row index; cbn [forEachHeader].
  - set_solver.
  - rewrite IH. unfold setProperty. case_decide.
    + subst h. set_solver.
    + rewrite dom_insert_L. apply set_eq. intros x.
      destruct (decide (x = "__proto__")); set_solver.
Qed.

(** X8: the keys of every row [parseCSV] returns are exactly the cleaned
    headers other than [__proto__] (a name under which the assignment stores
    nothing), so all rows of a file have the same keys, which are the
    cleaned headers when none of them is [__proto__]; and there is at most
    one row for each non-blank line after the header lines. *)
Theorem parseCSV_rows_keys (csvText : string) :
  let lines := List.filter nonBlank (JS.splitLines csvText) in
  Forall (fun row : Row =>
            dom row = list_to_set (headerStage lines).1 ∖ {["__proto__"]} /\
            ("__proto__" ∉ (headerStage lines).1 ->
             dom row = list_to_set (headerStage lines).1))
    (parseCSV csvText) /\
  (length (parseCSV csvText) <= length lines - (headerStage lines).2)%nat.
Proof.
  cbv zeta. unfold parseCSV.
  destruct (Z.of_nat _ <? 2); [split; [constructor|simpl; lia]|].
  destruct (headerStage _) as [hs k]. cbn [fst snd].
  unfold dataRows. rewrite dataRows_from. cbn [app]. split.
  - apply Forall_map, Forall_true. intros l. unfold buildRow.
    rewrite forEachHeader_dom. split; [set_solver|].
    intros Hp. set_solver.
  - rewrite length_map.
    etransitivity; [apply List.filter_length_le|]. now rewrite length_drop.
Qed.

Lemma quoteScan_unquoted line prev q :
  hasChar JS.dquote line = false -> quoteScan prev q line = q.
Proof.
  revert prev q. induction line as [|c r IH]; intros prev q H; [reflexivity|].
  cbn [hasChar] in H. apply orb_false_iff in H as [H1 H2].
  cbn [quoteScan]. rewrite H1. cbn [andb]. now apply IH.
Qed.

Lemma headerWhile_spec pending :
  forall q idx hl (L : list string),
  (hl ++ pending)%list = L -> length hl = idx ->
  (idx <= (headerWhile q idx hl idx pending).2)%nat /\
  ((headerWhile q idx hl idx pending).2 <= Nat.max idx 5)%nat /\
  ((headerWhile q idx hl idx pending).2 <= length L)%nat /\
  (headerWhile q idx hl idx pending).1 = take (headerWhile q idx hl idx pending).2 L.
Proof.
  induction pending as [|next pending IH]; intros q idx hl L HL Hlen.
  - cbn [headerWhile fst snd]. subst L. rewrite app_nil_r, <- Hlen, firstn_all.
    repeat split; lia.
  - cbn [headerWhile].
    destruct (q && (Z.of_nat idx <? 5)) eqn:E.
    + apply andb_true_iff in E as [_ E]. apply Z.ltb_lt in E.
      specialize (IH (quoteScan None q next) (S idx) (push hl next) L).
      destruct IH as (I1 & I2 & I3 & I4).
      * unfold push. now rewrite <- app_assoc.
      * unfold push. rewrite length_app. simpl. lia.
      * repeat split; [lia|lia|exact I3|exact I4].
    + cbn [fst snd]. subst L. rewrite length_app.
      repeat split; try lia.
      rewrite <- Hlen. now rewrite take_app_length.
Qed.

(** X9: the header of a file is made of its first [k] non-blank lines
    joined by a space, with [k] between 1 and 5; [k] is 1 when the first
    line has no double quote, whatever the next lines hold. *)
Theorem headerStage_lines (line0 : string) (pending : list string) :
  let lines := line0 :: pending in
  let k := (headerStage lines).2 in
  (1 <= k <= 5)%nat /\ (k <= length lines)%nat /\
  (headerStage lines).1
    = map cleanHeader (parseCSVLine (String.concat " " (take k lines))) /\
  (hasChar JS.dquote line0 = false ->
   headerStage lines = (map cleanHeader (parseCSVLine line0), 1%nat)).
Proof.
  cbv zeta. unfold headerStage.
  pose proof (headerWhile_spec pending (quoteScan None false line0) 1 [line0]
                (line0 :: pending) eq_refl eq_refl) as (H1 & H2 & H3 & H4).
  destruct (headerWhile _ 1 [line0] 1 pending) as [hl k] eqn:E. cbn [fst snd] in *.
  repeat split; try lia.
  - now rewrite H4.
  - intros Hq. rewrite (quoteScan_unquoted _ _ _ Hq) in E.
    destruct pending; cbn in E; injection E as <- <-; reflexivity.
Qed.

Lemma hasChar_trimStart c s :
  hasChar c s = false -> hasChar c (JS.trimStart s) = false.
Proof.
  induction s as [|d r IH]; intros H; [reflexivity|]. cbn [JS.trimStart].
  destruct (JS.isWhiteSpace d); [|exact H].
  apply IH. cbn [hasChar] in H. now apply orb_false_iff in H as [_ ?].
Qed.

Lemma hasChar_trimEnd c s :
  hasChar c s = false -> hasChar c (JS.trimEnd s) = false.
Proof.
  induction s as [|d r IH]; intros H; [reflexivity|].
  cbn [hasChar] in H. apply orb_false_iff in H as [H1 H2].
  cbn [JS.trimEnd]. specialize (IH H2).
  destruct (JS.trimEnd r) as [|e t].
  - destruct (JS.isWhiteSpace d); [reflexivity|]. cbn [hasChar]. now rewrite H1.
  - cbn [hasChar] in *. now rewrite H1, IH.
Qed.

Lemma hasChar_trim c s : hasChar c s = false -> hasChar c (JS.trim s) = false.
Proof. intros H. unfold JS.trim. now apply hasChar_trimEnd, hasChar_trimStart. Qed.

Lemma replaceLineBreaks_no_LF s : hasChar JS.LF (JS.replaceLineBreaks s) = false.
Proof.
  assert (H : forall n s, (String.length s <= n)%nat ->
                hasChar JS.LF (JS.replaceLineBreaks s) = false).
  { clear. induction n as [|n IH]; intros s Hn.
    - destruct s; [reflexivity|simpl in Hn; lia].
    - destruct s as [|c r]; [reflexivity|]. simpl in Hn.
      cbn [JS.replaceLineBreaks].
      destruct (Ascii.eqb c JS.LF) eqn:E.
      + cbn [hasChar]. rewrite IH by lia. reflexivity.
      + destruct r as [|c2 r'].
        * cbn [JS.charString hasChar]. now rewrite E.
        * simpl in Hn. destruct (Ascii.eqb c JS.CR && Ascii.eqb c2 JS.LF).
          -- cbn [hasChar]. rewrite IH by lia. reflexivity.
          -- cbn [hasChar]. rewrite E, IH by (simpl; lia). reflexivity. }
  apply (H (String.length s)). lia.
Qed.

Lemma cleanHeader_no_LF h : hasChar JS.LF (cleanHeader h) = false.
Proof. unfold cleanHeader. apply hasChar_trim, replaceLineBreaks_no_LF. Qed.

Lemma headerStage_no_LF lines :
  Forall (fun h => hasChar JS.LF h = false) (headerStage lines).1.
Proof.
  unfold headerStage. destruct lines as [|line0 pending]; [constructor|].
  destruct (headerWhile _ _ _ _ _) as [hl k]. cbn [fst].
  apply Forall_map, Forall_true. intros h. apply cleanHeader_no_LF.
Qed.

Lemma parseCSV_no_LF_key (csvText : string) :
  Forall (fun row : Row => forall k, hasChar JS.LF k = true -> row !! k = None)
    (parseCSV csvText).
Proof.
  unfold parseCSV. destruct (Z.of_nat _ <? 2); [constructor|].
  pose proof (headerStage_no_LF (List.filter nonBlank (JS.splitLines csvText))) as Hh.
  destruct (headerStage _) as [hs n]. cbn [fst] in Hh.
  unfold dataRows. rewrite dataRows_from. cbn [app].
  apply Forall_map, Forall_true. intros l k Hk. unfold buildRow.
  rewrite forEachHeader_absent; [apply lookup_empty|].
  intros Hin. rewrite Forall_forall in Hh. specialize (Hh k Hin). congruence.
Qed.

Lemma parseNumber_orElse_middle (x : option string) :
  parseNumber (orElse None (orElse x None)) = parseNumber x.
Proof. destruct x as [[|c r]|]; reflexivity. Qed.

(** X10: no key of a row of [parseCSV] holds a line feed, since header
    cleanup turns line breaks into spaces; so on such rows the three
    "AC Sales" amounts of [parseCSVRow] are read from the one-line spelling
    of the column name, and the spellings with a line break never apply. *)
Theorem parseCSVRow_ac_sales_keys (toUpperCase : string -> string) (csvText : string)
    (src : SourceYearType) :
  Forall (fun row : Row =>
    (forall k, hasChar JS.LF k = true -> row !! k = None) /\
    InventoryRowRaw.acSalesCost (parseCSVRow toUpperCase row src)
      = parseNumber (row !! "AC Sales (Cost)") /\
    InventoryRowRaw.acSalesNetAmount (parseCSVRow toUpperCase row src)
      = parseNumber (row !! "AC Sales (Net Amount)") /\
    InventoryRowRaw.acSalesGross (parseCSVRow toUpperCase row src)
      = parseNumber (row !! "AC Sales (Gross Sales)"))
    (parseCSV csvText).
Proof.
  eapply Forall_impl; [apply parseCSV_no_LF_key|].
  intros row Hrow. split; [exact Hrow|].
  unfold parseCSVRow.
  cbn [InventoryRowRaw.acSalesCost InventoryRowRaw.acSalesNetAmount
       InventoryRowRaw.acSalesGross].
  rewrite (Hrow ("AC Sales" ++ String JS.LF "(Cost)")%string eq_refl),
    (Hrow ("AC Sales" ++ String JS.CR (String JS.LF "(Cost)"))%string eq_refl),
    (Hrow ("AC Sales" ++ String JS.LF "(Net Amount)")%string eq_refl),
    (Hrow ("AC Sales" ++ String JS.CR (String JS.LF "(Net Amount)"))%string eq_refl),
    (Hrow ("AC Sales" ++ String JS.LF "(Gross Sales)")%string eq_refl),
    (Hrow ("AC Sales" ++ String JS.CR (String JS.LF "(Gross Sales)"))%string eq_refl).
  now rewrite !parseNumber_orElse_middle.
Qed.

(** The header that spans two lines in the source extracts: the column
    is read under its one-line name. *)
Example parseCSV_multi_line_header :
  map (fun row => InventoryRowRaw.acSalesCost (parseCSVRow upperAscii row CY))
    (parseCSV multiLineCsvText) = [5%float] /\
  map (fun row : Row => row !! "AC Sales (Cost)") (parseCSV multiLineCsvText) = [Some "5"].
Proof. split; vm_compute; reflexivity. Qed.

(** ** The season classifier across reference years *)

(** Type, year and stored code do not depend on the reference year; the
    bucket is a function of type, year and reference year. *)
Lemma parseSeason_fields (code : option string) (y : Z) :
  seasonCode (parseSeason code y) = seasonCode (parseSeason code 0) /\
  seasonType (parseSeason code y) = seasonType (parseSeason code 0) /\
  seasonYear (parseSeason code y) = seasonYear (parseSeason code 0) /\
  yearBucket (parseSeason code y)
    = Spec.bucketOf (seasonType (parseSeason code 0)) (seasonYear (parseSeason code 0)) y.
Proof.
  assert (H : forall s, JS.trim s = "" -> forall z,
            parseSeason (Some s) z
            = {| seasonCode := ""; seasonType := OTHER; seasonYear := None;
                 yearBucket := InSeason |}).
  { intros s E z. unfold parseSeason. change (default "" (Some s)) with s. now rewrite E. }
  destruct code as [s|]; [|repeat split].
  destruct (decide (JS.trim s = "")) as [E|E].
  - rewrite !(H s E). repeat split.
  - rewrite !(parseSeason_nonempty s _ E). repeat split.
Qed.

(** X11: for a given code, season type, season year and stored code are
    the same at every reference year, and the year bucket never gets
    younger as the reference year grows. *)
Theorem parseSeason_bucket_monotone (code : option string) :
  (forall y y',
     seasonCode (parseSeason code y) = seasonCode (parseSeason code y') /\
     seasonType (parseSeason code y) = seasonType (parseSeason code y') /\
     seasonYear (parseSeason code y) = seasonYear (parseSeason code y')) /\
  (forall y y', y <= y' ->
     bucketRank (yearBucket (parseSeason code y))
     <= bucketRank (yearBucket (parseSeason code y'))).
Proof.
  split.
  - intros y y'.
    destruct (parseSeason_fields code y) as (-> & -> & -> & _).
    destruct (parseSeason_fields code y') as (-> & -> & -> & _). repeat split.
  - intros y y' Hle.
    destruct (parseSeason_fields code y) as (_ & _ & _ & ->).
    destruct (parseSeason_fields code y') as (_ & _ & _ & ->).
    unfold Spec.bucketOf.
    destruct (seasonType (parseSeason code 0)), (seasonYear (parseSeason code 0)) as [n|];
      try reflexivity.
    cbv zeta.
    repeat match goal with
           | |- context [?a <=? ?b] => destruct (Z.leb_spec a b)
           | |- context [?a =? ?b] => destruct (Z.eqb_spec a b)
           end; cbn [bucketRank]; lia.
Qed.

(** X12: the prior-year frame against the current-year frame.  A code that
    is current or one year past against [y] is current against [y - 1]; two
    years past against [y] is one year past against [y - 1]; three or more
    years past against [y] is two, or three or more, against [y - 1]. *)
Theorem parseSeason_prior_year_frame (code : option string) (y : Z) :
  match yearBucket (parseSeason code y) with
  | InSeason | Y1 => yearBucket (parseSeason code (y - 1)) = InSeason
  | Y2 => yearBucket (parseSeason code (y - 1)) = Y1
  | Y3Plus => yearBucket (parseSeason code (y - 1)) = Y2 \/
              yearBucket (parseSeason code (y - 1)) = Y3Plus
  end.
Proof.
  destruct (parseSeason_fields code y) as (_ & _ & _ & ->).
  destruct (parseSeason_fields code (y - 1)) as (_ & _ & _ & ->).
  unfold Spec.bucketOf.
  destruct (seasonType (parseSeason code 0)), (seasonYear (parseSeason code 0)) as [n|];
    try reflexivity.
  cbv zeta.
  repeat match goal with
         | |- context [?a <=? ?b] => destruct (Z.leb_spec a b)
         | |- context [?a =? ?b] => destruct (Z.eqb_spec a b)
         end; try reflexivity; try lia; auto.
Qed.

Lemma leading_last s c :
  Spec.lastChar s = Some c -> s = (Spec.leading s ++ JS.charString c)%string.
Proof.
  induction s as [|d r IH]; [discriminate|].
  destruct r as [|e r']; [intros [= <-]; reflexivity|].
  intros H. change (Spec.leading (String d (String e r')))
    with (String d (Spec.leading (String e r'))).
  rewrite string_app_cons. f_equal. apply IH. exact H.
Qed.

Lemma lastChar_snoc d c : Spec.lastChar (d ++ JS.charString c) = Some c.
Proof.
  induction d as [|x d IH]; [reflexivity|]. rewrite string_app_cons.
  destruct (d ++ JS.charString c)%string eqn:E; [destruct d; discriminate|exact IH].
Qed.

Lemma leading_snoc d c : Spec.leading (d ++ JS.charString c) = d.
Proof.
  induction d as [|x d IH]; [reflexivity|]. rewrite string_app_cons.
  destruct (d ++ JS.charString c)%string as [|a s] eqn:E; [destruct d; discriminate|].
  change (Spec.leading (String x (String a s)))
    with (String x (Spec.leading (String a s))).
  f_equal. exact IH.
Qed.

Lemma typeOf_FW s : Spec.typeOf s = FW <-> Spec.lastChar s = Some "F"%char.
Proof.
  unfold Spec.typeOf. destruct (Spec.lastChar s) as [c|]; [|split; discriminate].
  destruct c as [[] [] [] [] [] [] [] []]; split; intros H;
    first [reflexivity | discriminate H].
Qed.

Lemma offSeason_code (code : string) (y : Z) :
  isOffSeasonFW {| carried := parseSeason (Some code) y |} = true <->
  exists d, JS.trim code = (d ++ "F")%string /\ JS.testDigits d = true /\
            Spec.decimalValue d < y.
Proof.
  rewrite isOffSeasonFW_iff.
  change (seasonInfoOf {| carried := parseSeason (Some code) y |})
    with (parseSeason (Some code) y).
  destruct (decide (JS.trim code = "")) as [E|E].
  - unfold parseSeason. change (default "" (Some code)) with code. rewrite E.
    cbn. split; [intros [? _]; discriminate|].
    intros (d & Hd & _). destruct d; discriminate.
  - rewrite (parseSeason_nonempty code y E). cbn [seasonType yearBucket].
    unfold Spec.yearOf, Spec.bucketOf. rewrite <- testDigits_spec. split.
    + intros [Ht Hb]. apply typeOf_FW in Ht as Hl. exists (Spec.leading (JS.trim code)).
      split; [exact (leading_last _ _ Hl)|].
      rewrite Ht in Hb.
      destruct (JS.testDigits (Spec.leading (JS.trim code)));
        [|destruct Hb as [?|[?|?]]; discriminate].
      split; [reflexivity|]. cbv zeta in Hb.
      destruct (Z.leb_spec (y - Spec.decimalValue (Spec.leading (JS.trim code))) 0);
        [destruct Hb as [?|[?|?]]; discriminate|lia].
    + intros (d & Hd & Hdig & Hlt). rewrite Hd.
      change "F" with (JS.charString "F"). rewrite leading_snoc.
      assert (Ht : Spec.typeOf (d ++ JS.charString "F") = FW)
        by (apply typeOf_FW, lastChar_snoc).
      rewrite Ht, Hdig. split; [reflexivity|]. cbv zeta.
      repeat match goal with
             | |- context [?a <=? ?b] => destruct (Z.leb_spec a b)
             | |- context [?a =? ?b] => destruct (Z.eqb_spec a b)
             end; auto; lia.
Qed.




(** ** Season targets *)

Lemma allDigits_snoc_letter d c :
  JS.isDigit c = false -> JS.testDigits (d ++ JS.charString c) = false.
Proof.
  intros Hc. unfold JS.testDigits.
  assert (H : JS.allDigits (d ++ JS.charString c) = false).
  { induction d as [|x d IH].
    { change ("" ++ JS.charString c)%string with (String c "").
      cbn [JS.allDigits]. now rewrite Hc. }
    rewrite string_app_cons. cbn [JS.allDigits]. rewrite IH. apply andb_false_r. }
  rewrite H. apply andb_false_r.
Qed.

(** X14: a target row whose season is written with the suffix FW (as in
    22FW) is classified by [normalizeTargetDataRow] as type Other with a
    null year and the current bucket, at every reference year: the last
    character is W, and the year part, ending in F, is not a number.  Such a
    row never passes the off-season filter. *)
Theorem normalizeTargetDataRow_FW_suffix (raw : TargetDataRowRaw.t) (y : Z) (d : string) :
  JS.trim (TargetDataRowRaw.SEASON raw) = (d ++ "FW")%string ->
  TargetDataRow.seasonInfo (normalizeTargetDataRow raw y)
    = {| seasonCode := (d ++ "FW")%string; seasonType := OTHER;
         seasonYear := None; yearBucket := InSeason |} /\
  isOffSeasonFW (normalizeTargetDataRow raw y) = false.
Proof.
  intros Hs.
  assert (E : TargetDataRow.seasonInfo (normalizeTargetDataRow raw y)
              = {| seasonCode := (d ++ "FW")%string; seasonType := OTHER;
                   seasonYear := None; yearBucket := InSeason |}).
  { unfold normalizeTargetDataRow. cbn [TargetDataRow.seasonInfo].
    rewrite parseSeason_nonempty by (rewrite Hs; destruct d; discriminate).
    rewrite Hs.
    assert (Hsplit : (d ++ "FW" = (d ++ "F") ++ JS.charString "W")%string)
      by (now rewrite string_app_assoc).
    assert (Ht : Spec.typeOf (d ++ "FW") = OTHER).
    { unfold Spec.typeOf. now rewrite Hsplit, lastChar_snoc. }
    assert (Hy : Spec.yearOf (d ++ "FW") = None).
    { unfold Spec.yearOf. rewrite <- testDigits_spec, Hsplit, leading_snoc.
      change "F" with (JS.charString "F"). now rewrite allDigits_snoc_letter. }
    now rewrite Ht, Hy. }
  split; [exact E|].
  rewrite isOffSeasonFW_table.
  change (seasonInfoOf (normalizeTargetDataRow raw y))
    with (TargetDataRow.seasonInfo (normalizeTargetDataRow raw y)).
  now rewrite E.
Qed.

Lemma normalizeTargetDataRow_FW_suffix_witness :
  JS.trim "22FW" = ("22" ++ "FW")%string /\
  isOffSeasonFW
    (normalizeTargetDataRow
       {| TargetDataRowRaw.PERIOD := "2025-12"; TargetDataRowRaw.SEASON_NAME := "2022FW";
          TargetDataRowRaw.SEASON := "22FW"; TargetDataRowRaw.CATEGORY := "OUTER";
          TargetDataRowRaw.AMOUNT := 1000 |} 25) = false.
Proof.
  split; [reflexivity|].
  exact (proj2 (normalizeTargetDataRow_FW_suffix
    {| TargetDataRowRaw.PERIOD := "2025-12"; TargetDataRowRaw.SEASON_NAME := "2022FW";
       TargetDataRowRaw.SEASON := "22FW"; TargetDataRowRaw.CATEGORY := "OUTER";
       TargetDataRowRaw.AMOUNT := 1000 |} 25 "22" eq_refl)).
Defined.

Lemma prefix_digit_head x p c r :
  JS.isDigit c = true -> JS.isDigit x = false ->
  String.prefix (String x p) (String c r) = false.
Proof.
  intros Hc Hx. cbn [String.prefix].
  destruct (ascii_dec x c) as [->|]; [congruence|reflexivity].
Qed.

Lemma replaceFirst_digits pat_head pat_tail rep d tail :
  JS.isDigit pat_head = false -> JS.allDigits d = true ->
  replaceFirst (String pat_head pat_tail) rep (d ++ tail)
  = (d ++ replaceFirst (String pat_head pat_tail) rep tail)%string.
Proof.
  intros Hp. induction d as [|c d IH]; intros Hd; [reflexivity|].
  cbn [JS.allDigits] in Hd. apply andb_true_iff in Hd as [Hc Hd].
  rewrite !string_app_cons.
  change (replaceFirst (String pat_head pat_tail) rep (String c (d ++ tail)))
    with (if String.prefix (String pat_head pat_tail) (String c (d ++ tail))
          then (rep ++ JS.slice (String c (d ++ tail)) (JS.len (String pat_head pat_tail)) None)%string
          else String c (replaceFirst (String pat_head pat_tail) rep (d ++ tail))).
  rewrite (prefix_digit_head _ _ _ _ Hc Hp). f_equal. now apply IH.
Qed.

(** X15: in the dashboard, a target season written as digits followed by FW
    is rewritten to digits followed by F and gets the bucket of that code
    against 25: none when the year is 25 or later, else one year past at 24,
    two years past at 23 and three or more below; the spelling with F gets
    the same bucket. *)
Theorem targetBucket_FW_spelling (d : string) :
  JS.testDigits d = true ->
  targetBucket (d ++ "FW") = targetBucket (d ++ "F") /\
  targetBucket (d ++ "FW")
    = (let diff := 25 - Spec.decimalValue d in
       if diff <=? 0 then None
       else if diff =? 1 then Some Y1
       else if diff =? 2 then Some Y2
       else Some Y3Plus).
Proof.
  intros Hd. pose proof Hd as Hall. unfold JS.testDigits in Hall.
  apply andb_true_iff in Hall as [_ Hall].
  assert (E1 : replaceFirst "SS" "S" (replaceFirst "FW" "F" (d ++ "FW")) = (d ++ "F")%string).
  { rewrite (replaceFirst_digits "F" "W" "F" d "FW" eq_refl Hall).
    change (replaceFirst "FW" "F" "FW") with "F".
    now rewrite (replaceFirst_digits "S" "S" "S" d "F" eq_refl Hall). }
  assert (E2 : replaceFirst "SS" "S" (replaceFirst "FW" "F" (d ++ "F")) = (d ++ "F")%string).
  { rewrite (replaceFirst_digits "F" "W" "F" d "F" eq_refl Hall).
    change (replaceFirst "FW" "F" "F") with "F".
    now rewrite (replaceFirst_digits "S" "S" "S" d "F" eq_refl Hall). }
  unfold targetBucket. rewrite E1, E2. split; [reflexivity|].
  assert (Htrim : JS.trim (d ++ "F") = (d ++ "F")%string).
  { destruct d as [|c d]; [discriminate|]. cbn [JS.allDigits] in Hall.
    apply andb_true_iff in Hall as [Hc _]. unfold JS.trim.
    rewrite string_app_cons, (trimStart_head_not_ws _ _ (isDigit_not_ws _ Hc)).
    rewrite <- string_app_cons.
    assert (Hend : forall s, JS.trimEnd (s ++ "F") = (s ++ "F")%string).
    { clear. induction s as [|x s IH]; [reflexivity|].
      rewrite string_app_cons. cbn [JS.trimEnd]. rewrite IH.
      now destruct (s ++ "F")%string eqn:E; [destruct s; discriminate|]. }
    apply Hend. }
  rewrite parseSeason_nonempty by (rewrite Htrim; destruct d; discriminate).
  rewrite Htrim. cbn [seasonType yearBucket].
  change "F" with (JS.charString "F").
  assert (Ht : Spec.typeOf (d ++ JS.charString "F") = FW)
    by (apply typeOf_FW, lastChar_snoc).
  assert (Hy : Spec.yearOf (d ++ JS.charString "F") = Some (Spec.decimalValue d)).
  { unfold Spec.yearOf. now rewrite <- testDigits_spec, leading_snoc, Hd. }
  rewrite Ht, Hy. cbn [Spec.bucketOf]. cbv zeta.
  repeat match goal with
         | |- context [?a <=? ?b] => destruct (Z.leb_spec a b)
         | |- context [?a =? ?b] => destruct (Z.eqb_spec a b)
         end; try reflexivity; lia.
Qed.

Lemma targetBucket_FW_spelling_witness :
  JS.testDigits "22" = true /\ targetBucket "22FW" = Some Y3Plus.
Proof.
  split; [reflexivity|]. exact (proj2 (targetBucket_FW_spelling "22" eq_refl)).
Defined.

(** ** The two FX normalizers *)

(** X16: the graph normalizer and the inventory normalizer agree: on the
    same country and the same amounts they produce the same four
    normalized amounts and the same discount rate. *)
Theorem normalizers_agree (raw : GraphDataRowRaw.t) (row : InventoryRowRaw.t)
    (si : SeasonInfo) :
  GraphDataRowRaw.Country raw = InventoryRowRaw.country row ->
  GraphDataRowRaw.Gross_Sales raw = InventoryRowRaw.grossSalesMonth row ->
  GraphDataRowRaw.Net_Sales raw = InventoryRowRaw.netSalesMonth row ->
  GraphDataRowRaw.Stock_Price raw = InventoryRowRaw.stockPriceTag row ->
  GraphDataRowRaw.Stock_Cost raw = InventoryRowRaw.stockCost row ->
  GraphDataRow.grossSalesFx (normalizeGraphDataRow raw)
    = InventoryRow.grossSalesFx (applyFxNormalization row si) /\
  GraphDataRow.netSalesFx (normalizeGraphDataRow raw)
    = InventoryRow.netSalesFx (applyFxNormalization row si) /\
  GraphDataRow.stockPriceFx (normalizeGraphDataRow raw)
    = InventoryRow.stockPriceFx (applyFxNormalization row si) /\
  GraphDataRow.stockCostFx (normalizeGraphDataRow raw)
    = InventoryRow.stockCostFx (applyFxNormalization row si) /\
  GraphDataRow.discountRate (normalizeGraphDataRow raw)
    = InventoryRow.discountRateMonth (applyFxNormalization row si).
Proof.
  intros Hc Hg Hn Hp Hk. unfold normalizeGraphDataRow, applyFxNormalization.
  cbn [GraphDataRow.grossSalesFx GraphDataRow.netSalesFx GraphDataRow.stockPriceFx
       GraphDataRow.stockCostFx GraphDataRow.discountRate
       InventoryRow.grossSalesFx InventoryRow.netSalesFx InventoryRow.stockPriceFx
       InventoryRow.stockCostFx InventoryRow.discountRateMonth].
  rewrite Hc, Hg, Hn, Hp, Hk. repeat split.
Qed.

Lemma normalizers_agree_witness :
  GraphDataRow.discountRate
    (normalizeGraphDataRow
       {| GraphDataRowRaw.Period := "2512"; GraphDataRowRaw.Year := "2025";
          GraphDataRowRaw.Season_Code := "24F"; GraphDataRowRaw.Gross_Sales := 1000;
          GraphDataRowRaw.Net_Sales := 900; GraphDataRowRaw.Stock_Price := 0;
          GraphDataRowRaw.Stock_Cost := 0; GraphDataRowRaw.Country := "MC" |})
  = InventoryRow.discountRateMonth
      (applyFxNormalization (sampleRaw "MC" "24F" "1000" "900" CY)
         (parseSeason (Some "24F") 25)).
Proof.
  refine (proj2 (proj2 (proj2 (proj2 (normalizers_agree _ _ _ _ _ _ _ _)))));
    vm_compute; reflexivity.
Defined.

(** ** The calendar year of a graph row *)

Lemma digitValue_range c : JS.isDigit c = true -> 0 <= JS.digitValue c <= 9.
Proof.
  destruct c as [[] [] [] [] [] [] [] []]; intros H;
    first [discriminate H | (vm_compute; split; discriminate)].
Qed.

(** X17: when the Period of a graph row begins with two digits, the year
    of the row is 2000 plus the number they spell, whatever the Year column
    holds, and the season code is classified against 24 exactly when that
    year is 2024, against 25 otherwise.  In every case the year is not 0. *)
Theorem normalizeGraphDataRow_year (raw : GraphDataRowRaw.t) :
  GraphDataRow.year (normalizeGraphDataRow raw) <> 0 /\
  (forall c1 c2 rest,
     GraphDataRowRaw.Period raw = String c1 (String c2 rest) ->
     JS.isDigit c1 = true -> JS.isDigit c2 = true ->
     GraphDataRow.year (normalizeGraphDataRow raw)
       = 2000 + 10 * JS.digitValue c1 + JS.digitValue c2 /\
     GraphDataRow.seasonInfo (normalizeGraphDataRow raw)
       = parseSeason (Some (GraphDataRowRaw.Season_Code raw))
           (if GraphDataRow.year (normalizeGraphDataRow raw) =? 2024 then 24 else 25)).
Proof.
  split.
  - unfold normalizeGraphDataRow. cbn [GraphDataRow.year].
    assert (Hy : match JS.parseInt (GraphDataRowRaw.Year raw) with
                 | Some y => if y =? 0 then 2025 else y
                 | None => 2025
                 end <> 0).
    { destruct (JS.parseInt _) as [y|]; [|discriminate].
      destruct (Z.eqb_spec y 0); [discriminate|assumption]. }
    destruct (JS.parseInt (JS.substring _ 0 2)) as [py|]; [|exact Hy].
    destruct ((24 <=? py) && (py <=? 99)) eqn:E1.
    { apply andb_true_iff in E1 as [E1 _]. apply Z.leb_le in E1. lia. }
    destruct ((0 <=? py) && (py <? 24)) eqn:E2; [|exact Hy].
    apply andb_true_iff in E2 as [E2 _]. apply Z.leb_le in E2. lia.
  - intros c1 c2 rest HP H1 H2.
    pose proof (digitValue_range _ H1) as R1. pose proof (digitValue_range _ H2) as R2.
    assert (Hpy : JS.parseInt (JS.substring (GraphDataRowRaw.Period raw) 0 2)
                  = Some (10 * JS.digitValue c1 + JS.digitValue c2)).
    { rewrite substring_0_2, HP. rewrite parseInt_digits.
      - unfold Spec.decimalValue. cbn [list_ascii_of_string fold_left]. f_equal; lia.
      - unfold JS.testDigits. cbn [JS.truthy JS.allDigits]. now rewrite H1, H2. }
    unfold normalizeGraphDataRow. cbn [GraphDataRow.year GraphDataRow.seasonInfo].
    rewrite Hpy. set (py := 10 * JS.digitValue c1 + JS.digitValue c2) in *.
    assert (Hyear : (if (24 <=? py) && (py <=? 99) then 2000 + py
                     else if (0 <=? py) && (py <? 24) then 2000 + py
                     else match JS.parseInt (GraphDataRowRaw.Year raw) with
                          | Some y => if y =? 0 then 2025 else y
                          | None => 2025
                          end) = 2000 + py).
    { destruct ((24 <=? py) && (py <=? 99)) eqn:E1; [reflexivity|].
      destruct ((0 <=? py) && (py <? 24)) eqn:E2; [reflexivity|].
      exfalso. apply andb_false_iff in E1, E2.
      destruct E1 as [E1|E1], E2 as [E2|E2];
        first [apply Z.leb_gt in E1 | apply Z.ltb_ge in E1];
        first [apply Z.leb_gt in E2 | apply Z.ltb_ge in E2]; subst py; lia. }
    rewrite Hyear. split; [subst py; lia|].
    f_equal. unfold bool_decide.
    destruct (decide_rel eq (Some py) (Some 24)) as [E|E];
      destruct (Z.eqb_spec (2000 + py) 2024); try reflexivity.
    + injection E as E. lia.
    + exfalso. apply E. f_equal. lia.
Qed.

(** ** The orchestrators and the dashboard filters *)

(** X18: given decoded rows, [loadData] returns one normalized row for each
    of them, the prior-year rows first and every row in its place, tagged
    with its source; it does so whatever the file paths, the [currentFwYear]
    property and the answers of [fetch] are. *)
Theorem loadData_given_rows (toUpperCase : string -> string)
    (fetch : string -> option Response) (py cy : list Row)
    (pyPath cyPath : option string) (y : Z) :
  exists rows,
    loadData toUpperCase fetch
      {| pyFilePath := pyPath; cyFilePath := cyPath;
         pyRowsRaw := Some py; cyRowsRaw := Some cy; currentFwYear := y |} = Some rows /\
    length rows = (length py + length cy)%nat /\
    map (fun r => (InventoryRow.sourceYearType r, InventoryRow.season r)) rows
      = (map (fun row : Row => (PY, parseString (row !! "SEASON"))) py ++
         map (fun row : Row => (CY, parseString (row !! "SEASON"))) cy)%list /\
    (forall fetch' pyPath' cyPath' y',
       loadData toUpperCase fetch'
         {| pyFilePath := pyPath'; cyFilePath := cyPath';
            pyRowsRaw := Some py; cyRowsRaw := Some cy; currentFwYear := y' |} = Some rows).
Proof.
  eexists. split; [apply loadData_rows; reflexivity|].
  split; [now rewrite length_app, !length_map|].
  split.
  - rewrite map_app, !map_map. reflexivity.
  - intros fetch' pyPath' cyPath' y'. now apply loadData_rows.
Qed.


(** X20: every row of [filteredData] is a row of the data from HK or MC
    whose season type is Fall/Winter and whose bucket is not the current
    one; the current-year and prior-year selections split it in two; and
    the filter the item analysis applies once more on the current-year rows
    selects exactly the current-year selection. *)
Theorem filteredData_selections (data : list InventoryRow.t) :
  Forall (fun row =>
            In row data /\
            (InventoryRow.country row = "HK" \/ InventoryRow.country row = "MC") /\
            seasonType (InventoryRow.seasonInfo row) = FW /\
            yearBucket (InventoryRow.seasonInfo row) <> InSeason)
    (filteredData data) /\
  (length (cyOffSeasonFW data) + length (pyOffSeasonFW data)
   = length (filteredData data))%nat /\
  cyFiltered data = cyOffSeasonFW data.
Proof.
  split; [|split].
  - apply Forall_forall. intros row Hin. apply list_elem_of_In in Hin.
    unfold filteredData in Hin. apply filter_In in Hin as [Hin Hp]. cbv zeta in Hp.
    apply andb_true_iff in Hp as [Hc Ho]. apply isOffSeasonFW_iff in Ho as [Ht Hb].
    change (seasonInfoOf row) with (InventoryRow.seasonInfo row) in *.
    split; [exact Hin|]. split; [|split; [exact Ht|]].
    + apply orb_true_iff in Hc as [Hc|Hc]; apply String.eqb_eq in Hc; auto.
    + destruct Hb as [E|[E|E]]; rewrite E; discriminate.
  - unfold cyOffSeasonFW, pyOffSeasonFW.
    induction (filteredData data) as [|row l IH]; [reflexivity|]. cbn [List.filter].
    repeat case_bool_decide; cbn [length]; try lia;
      destruct (InventoryRow.sourceYearType row); congruence.
  - unfold cyFiltered, cyOffSeasonFW.
    induction data as [|row data IH]; [reflexivity|].
    unfold filteredData in *. cbn [List.filter]. cbv zeta.
    destruct (String.eqb (InventoryRow.country row) "HK"
              || String.eqb (InventoryRow.country row) "MC") eqn:Ec;
      cbn [andb]; [|exact IH].
    destruct (isOffSeasonFW row) eqn:Eo; [|exact IH].
    cbn [List.filter]. rewrite Eo, Ec, !andb_true_r.
    destruct (bool_decide _); [now rewrite IH|exact IH].
Qed.

(** X21: end to end, on the rows [loadData] normalizes from decoded rows:
    every row that [filteredData] keeps has a season column made of digits
    followed by F, and the year the digits spell is below 24 for a
    prior-year row and below 25 for a current-year row. *)
Theorem loadData_filteredData_seasons (toUpperCase : string -> string)
    (fetch : string -> option Response) (py cy : list Row)
    (pyPath cyPath : option string) (y : Z) :
  Forall (fun r =>
            exists d, InventoryRow.season r = (d ++ "F")%string /\
                      JS.testDigits d = true /\
                      Spec.decimalValue d <
                        match InventoryRow.sourceYearType r with PY => 24 | CY => 25 end)
    (filteredData
       (default []
          (loadData toUpperCase fetch
             {| pyFilePath := pyPath; cyFilePath := cyPath;
                pyRowsRaw := Some py; cyRowsRaw := Some cy; currentFwYear := y |}))).
Proof.
  rewrite (loadData_rows toUpperCase fetch
             {| pyFilePath := pyPath; cyFilePath := cyPath;
                pyRowsRaw := Some py; cyRowsRaw := Some cy; currentFwYear := y |}
             py cy eq_refl eq_refl).
  cbn [default from_option id].
  apply Forall_forall. intros r Hin. apply list_elem_of_In in Hin.
  unfold filteredData in Hin. apply filter_In in Hin as [Hin Hp]. cbv zeta in Hp.
  apply andb_true_iff in Hp as [_ Ho].
  assert (Hr : exists src row,
             r = normalizeRow toUpperCase src (match src with PY => 24 | CY => 25 end) row).
  { apply in_app_or in Hin as [Hin|Hin]; apply in_map_iff in Hin as (row & <- & _);
      [exists PY, row|exists CY, row]; reflexivity. }
  destruct Hr as (src & row & ->).
  change (isOffSeasonFW (normalizeRow toUpperCase src
                           (match src with PY => 24 | CY => 25 end) row))
    with (isOffSeasonFW
            {| carried := parseSeason (Some (parseString (row !! "SEASON")))
                            (match src with PY => 24 | CY => 25 end) |}) in Ho.
  apply offSeason_code in Ho as (d & Hd & Hdig & Hlt).
  exists d. split; [|split; [exact Hdig|exact Hlt]].
  change (InventoryRow.season (normalizeRow toUpperCase src _ row))
    with (parseString (row !! "SEASON")).
  rewrite <- Hd. unfold parseString. symmetry. apply trim_idempotent.
Qed.

Lemma forEachHeader_values_trimmed vs (row : Row) index hs :
  Forall (fun f => JS.trim f = f) vs ->
  (forall k v, row !! k = Some v -> JS.trim v = v) ->
  forall k v, forEachHeader vs row index hs !! k = Some v -> JS.trim v = v.
Proof.
  intros Hvs. revert row index. induction hs as [|h hs IH]; intros row index Hrow k v;
    cbn [forEachHeader]; [apply Hrow|].
  apply IH. intros k' v'. unfold setProperty. case_decide; [apply Hrow|].
  rewrite lookup_insert. case_decide.
  - intros [= <-]. destruct (vs !! index) as [f|] eqn:E; [|reflexivity].
    cbn [default from_option id]. rewrite Forall_forall in Hvs.
    apply Hvs. apply list_elem_of_lookup. eauto.
  - apply Hrow.
Qed.

(** X22: the cells of a row of [parseCSV] are trimmed already, so the
    string fields [parseCSVRow] decodes from such a row are the cells as
    they stand, or empty where the column is missing. *)
Theorem parseCSV_cells_trimmed (toUpperCase : string -> string) (csvText : string)
    (src : SourceYearType) :
  Forall (fun row : Row =>
    (forall k v, row !! k = Some v -> JS.trim v = v) /\
    (forall k, parseString (row !! k) = default "" (row !! k)) /\
    InventoryRowRaw.period (parseCSVRow toUpperCase row src) = default "" (row !! "period") /\
    InventoryRowRaw.season (parseCSVRow toUpperCase row src) = default "" (row !! "SEASON") /\
    InventoryRowRaw.itemCode (parseCSVRow toUpperCase row src)
      = default "" (row !! "ITEM CODE"))
    (parseCSV csvText).
Proof.
  assert (H : Forall (fun row : Row => forall k v, row !! k = Some v -> JS.trim v = v)
                (parseCSV csvText)).
  { unfold parseCSV. destruct (Z.of_nat _ <? 2); [constructor|].
    destruct (headerStage _) as [hs n].
    unfold dataRows. rewrite dataRows_from. cbn [app].
    apply Forall_map, Forall_true. intros l. unfold buildRow, tokens.
    apply forEachHeader_values_trimmed.
    - apply parseCSVLine_from_trimmed with (n := String.length (JS.trim l));
        [lia|constructor].
    - intros k v. rewrite lookup_empty. discriminate. }
  eapply Forall_impl; [exact H|]. intros row Hrow.
  assert (Hk : forall k, parseString (row !! k) = default "" (row !! k)).
  { intros k. unfold parseString. destruct (row !! k) as [v|] eqn:E; [|reflexivity].
    cbn [default from_option id]. now apply (Hrow k). }
  split; [exact Hrow|]. split; [exact Hk|].
  unfold parseCSVRow.
  cbn [InventoryRowRaw.period InventoryRowRaw.season InventoryRowRaw.itemCode].
  now rewrite !Hk.
Qed.

(** ** The discount rate and the raw gross sales *)

Lemma binary_round_aux_positive sx mx ex lx :
  SFltb (S754_zero false) (binary_round_aux prec emax sx mx ex lx) = true -> sx = false.
Proof.
  unfold binary_round_aux.
  destruct (shr_fexp prec emax mx ex lx) as [mrs' e'].
  destruct (shr_fexp prec emax _ e' loc_Exact) as [mrs'' e''].
  destruct (shr_m mrs'') as [|m|m]; [discriminate| |discriminate].
  destruct (e'' <=? emax - prec); destruct sx; cbn; congruence.
Qed.

(** A quotient by a positive finite number is positive only when the
    dividend is. *)
Lemma float_div_positive (x r : float) m e :
  Prim2SF r = S754_finite false m e ->
  (0 <? x / r)%float = true -> (0 <? x)%float = true.
Proof.
  intros Hr. rewrite !ltb_spec, div_spec, Hr.
  change (Prim2SF 0) with (S754_zero false).
  destruct (Prim2SF x) as [s|s| |s mx ex]; cbn [SF64div SFdiv].
  - destruct s; discriminate.
  - destruct s; [discriminate|reflexivity].
  - discriminate.
  - destruct (SFdiv_core_binary prec emax (Z.pos mx) ex (Z.pos m) e) as [[mz ez] lz].
    intros H. apply binary_round_aux_positive in H.
    rewrite xorb_false_r in H. now subst s.
Qed.

(** X23: FX normalization creates no discount rate: when the raw monthly
    gross sales is not strictly positive, zero, negative or NaN, the discount
    rate is null in every country; for HK and for a country outside the rate
    table the discount rate is null exactly then. *)
Theorem discount_needs_positive_gross (row : InventoryRowRaw.t) (si : SeasonInfo) :
  ((0 <? InventoryRowRaw.grossSalesMonth row)%float = false ->
   InventoryRow.discountRateMonth (applyFxNormalization row si) = None) /\
  (InventoryRowRaw.country row <> "MC" -> InventoryRowRaw.country row <> "TW" ->
   (InventoryRow.discountRateMonth (applyFxNormalization row si) = None <->
    (0 <? InventoryRowRaw.grossSalesMonth row)%float = false)).
Proof.
  unfold applyFxNormalization. cbn [InventoryRow.discountRateMonth].
  set (c := InventoryRowRaw.country row). set (g := InventoryRowRaw.grossSalesMonth row).
  split.
  - intros Hg.
    assert (Hdiv : forall r m e, Prim2SF r = S754_finite false m e ->
                                 (0 <? g / r)%float = false).
    { intros r m e Hr. destruct (0 <? g / r)%float eqn:E; [|reflexivity].
      rewrite (float_div_positive g r m e Hr E) in Hg. discriminate. }
    destruct (String.eqb c "HK"); [now rewrite Hg|].
    destruct (String.eqb c "MC"); [now rewrite (Hdiv 1.03%float _ _ eq_refl)|].
    destruct (String.eqb c "TW"); [now rewrite (Hdiv 4.02%float _ _ eq_refl)|].
    now rewrite (Hdiv 1%float _ _ eq_refl).
  - intros HMC HTW.
    destruct (String.eqb_spec c "MC") as [?|_]; [contradiction|].
    destruct (String.eqb_spec c "TW") as [?|_]; [contradiction|].
    assert (E : (if String.eqb c "HK" then g else (g / (if String.eqb c "HK" then 1 else 1))%float) = g).
    { destruct (String.eqb c "HK"); [reflexivity|apply float_div_one]. }
    rewrite E. destruct (0 <? g)%float; split; congruence.
Qed.

(** The converse fails in TW at the smallest positive amount: it is
    positive, its quotient by 4.02 rounds to zero, and the discount rate is
    null. *)
Example discount_null_on_underflow :
  let row := sampleRaw "TW" "24F" "5e-324" "0" CY in
  (0 <? InventoryRowRaw.grossSalesMonth row)%float = true /\
  InventoryRow.grossSalesFx (applyFxNormalization row (parseSeason (Some "24F") 25))
    = 0%float /\
  InventoryRow.discountRateMonth (applyFxNormalization row (parseSeason (Some "24F") 25))
    = None.
Proof. repeat split; vm_compute; reflexivity. Qed.

(** ** White space around a line *)

Lemma allWs_no_char c w : JS.isWhiteSpace c = false -> allWs w = true -> hasChar c w = false.
Proof.
  intros Hc. induction w as [|d w IH]; intros H; [reflexivity|].
  cbn [allWs] in H. apply andb_true_iff in H as [Hd Hw]. cbn [hasChar].
  rewrite (IH Hw), orb_false_r. destruct (Ascii.eqb_spec d c); [congruence|reflexivity].
Qed.

Lemma trimStart_decomp s : exists w, allWs w = true /\ s = (w ++ JS.trimStart s)%string.
Proof.
  induction s as [|c r (w & Hw & E)]; [now exists ""|]. cbn [JS.trimStart].
  destruct (JS.isWhiteSpace c) eqn:W; [|now exists ""].
  exists (String c w). split; [cbn [allWs]; now rewrite W, Hw|].
  rewrite string_app_cons. now f_equal.
Qed.

Lemma trimEnd_decomp s : exists w, allWs w = true /\ s = (JS.trimEnd s ++ w)%string.
Proof.
  induction s as [|c r (w & Hw & E)]; [now exists ""|]. cbn [JS.trimEnd].
  destruct (JS.trimEnd r) as [|d t] eqn:T.
  - destruct (JS.isWhiteSpace c) eqn:W.
    + exists (String c w). split; [cbn [allWs]; now rewrite W, Hw|]. now rewrite E at 1.
    + exists w. split; [exact Hw|]. now rewrite E at 1.
  - exists w. split; [exact Hw|]. rewrite string_app_cons. now f_equal.
Qed.

Lemma trimStart_ws_app w s : allWs w = true -> JS.trimStart (w ++ s) = JS.trimStart s.
Proof.
  induction w as [|c w IH]; intros H; [reflexivity|].
  cbn [allWs] in H. apply andb_true_iff in H as [Hc Hw].
  rewrite string_app_cons. cbn [JS.trimStart]. rewrite Hc. now apply IH.
Qed.

Lemma trimEnd_ws w : allWs w = true -> JS.trimEnd w = "".
Proof.
  induction w as [|c w IH]; intros H; [reflexivity|].
  cbn [allWs] in H. apply andb_true_iff in H as [Hc Hw].
  cbn [JS.trimEnd]. now rewrite (IH Hw), Hc.
Qed.

Lemma trimEnd_app_ws s w : allWs w = true -> JS.trimEnd (s ++ w) = JS.trimEnd s.
Proof.
  intros Hw. induction s as [|c s IH]; [now apply trimEnd_ws|].
  rewrite string_app_cons. cbn [JS.trimEnd]. now rewrite IH.
Qed.

Lemma trimStart_app_ws s w :
  allWs w = true ->
  JS.trimStart (s ++ w) = match JS.trimStart s with
                          | EmptyString => EmptyString
                          | t => (t ++ w)%string
                          end.
Proof.
  intros Hw. induction s as [|c s IH].
  - cbn [JS.trimStart]. change ("" ++ w)%string with w.
    destruct (trimStart_decomp w) as (v & Hv & E).
    clear E. induction w as [|d w IHw]; [reflexivity|].
    cbn [allWs] in Hw. apply andb_true_iff in Hw as [Hd Hw].
    cbn [JS.trimStart]. rewrite Hd. now apply IHw.
  - rewrite string_app_cons. cbn [JS.trimStart].
    destruct (JS.isWhiteSpace c); [exact IH|reflexivity].
Qed.

Lemma trim_ws_app w s : allWs w = true -> JS.trim (w ++ s) = JS.trim s.
Proof. intros H. unfold JS.trim. now rewrite trimStart_ws_app. Qed.

Lemma trim_app_ws s w : allWs w = true -> JS.trim (s ++ w) = JS.trim s.
Proof.
  intros H. unfold JS.trim. rewrite (trimStart_app_ws _ _ H).
  destruct (JS.trimStart s) as [|c t] eqn:E; [reflexivity|].
  now rewrite trimEnd_app_ws.
Qed.

Lemma parseCSVLine_from_cur_ws w :
  allWs w = true -> forall n line, (String.length line <= n)%nat -> forall vs cur q,
  parseCSVLine_from vs (w ++ cur) q line = parseCSVLine_from vs cur q line.
Proof.
  intros Hw. induction n as [|n IH]; intros line Hn vs cur q.
  - destruct line; [|simpl in Hn; lia]. cbn [parseCSVLine_from].
    now rewrite trim_ws_app.
  - destruct line as [|c r]; [cbn [parseCSVLine_from]; now rewrite trim_ws_app|].
    simpl in Hn. cbn [parseCSVLine_from].
    destruct (Ascii.eqb c JS.dquote).
    + destruct r as [|d r'].
      * apply IH. simpl. lia.
      * simpl in Hn. destruct (q && Ascii.eqb d JS.dquote).
        -- rewrite string_app_assoc. apply IH. lia.
        -- apply IH. simpl. lia.
    + destruct (Ascii.eqb c JS.comma && negb q).
      * now rewrite trim_ws_app.
      * rewrite string_app_assoc. apply IH. lia.
Qed.

Lemma parseCSVLine_from_trailing_ws w :
  allWs w = true -> forall n line, (String.length line <= n)%nat -> forall vs cur q,
  parseCSVLine_from vs cur q (line ++ w) = parseCSVLine_from vs cur q line.
Proof.
  intros Hw.
  assert (Hbase : forall vs cur q,
            parseCSVLine_from vs cur q w = parseCSVLine_from vs cur q "").
  { intros vs cur q. rewrite <- (string_app_nil_r w) at 1.
    rewrite parseCSVLine_from_plain.
    - cbn [parseCSVLine_from]. now rewrite trim_app_ws.
    - now apply allWs_no_char.
    - right. now apply allWs_no_char. }
  induction n as [|n IH]; intros line Hn vs cur q.
  - destruct line; [apply Hbase|simpl in Hn; lia].
  - destruct line as [|c r]; [apply Hbase|]. simpl in Hn.
    rewrite string_app_cons. cbn [parseCSVLine_from].
    destruct (Ascii.eqb c JS.dquote).
    + destruct r as [|d r'].
      * change ("" ++ w)%string with w. rewrite Hbase.
        destruct w as [|x w']; [reflexivity|].
        cbn [allWs] in Hw. apply andb_true_iff in Hw as [Hx _].
        assert (Ex : Ascii.eqb x JS.dquote = false)
          by (destruct (Ascii.eqb_spec x JS.dquote); [subst; discriminate Hx|reflexivity]).
        rewrite Ex, andb_false_r.
        rewrite <- Hbase. reflexivity.
      * simpl in Hn. rewrite string_app_cons.
        destruct (q && Ascii.eqb d JS.dquote).
        -- apply IH. lia.
        -- rewrite <- string_app_cons. apply IH. simpl. lia.
    + destruct (Ascii.eqb c JS.comma && negb q); apply IH; lia.
Qed.

Lemma tokens_untrimmed (line : string) : tokens line = parseCSVLine line.
Proof.
  unfold tokens.
  unfold parseCSVLine, JS.trim.
  destruct (trimStart_decomp line) as (w1 & H1 & E1).
  destruct (trimEnd_decomp (JS.trimStart line)) as (w2 & H2 & E2).
  rewrite E1 at 2. rewrite E2 at 2.
  rewrite parseCSVLine_from_plain;
    [|now apply allWs_no_char|right; now apply allWs_no_char].
  rewrite <- (string_app_nil_r w1) at 1. change ("" ++ (w1 ++ ""))%string with (w1 ++ "")%string.
  rewrite (parseCSVLine_from_cur_ws w1 H1 _ _ (Nat.le_refl _)).
  now rewrite (parseCSVLine_from_trailing_ws w2 H2 _ _ (Nat.le_refl _)).
Qed.

(** X24: white space around a line does not matter to the tokenizer:
    [parseCSVLine] returns the same fields on a line and on the line
    trimmed, so the trim of each data line in [parseCSV] changes nothing. *)
Theorem parseCSVLine_trim (line : string) :
  parseCSVLine (JS.trim line) = parseCSVLine line.
Proof. apply tokens_untrimmed. Qed.

(** ** Round trip of a plain file *)

Lemma hasChar_app c a b : hasChar c (a ++ b) = hasChar c a || hasChar c b.
Proof.
  induction a as [|x a IH]; [reflexivity|].
  rewrite string_app_cons. cbn [hasChar]. now rewrite IH, orb_assoc.
Qed.

Lemma hasChar_concat c fs :
  Ascii.eqb JS.comma c = false ->
  Forall (fun f => hasChar c f = false) fs ->
  hasChar c (String.concat "," fs) = false.
Proof.
  intros Hc. induction fs as [|f fs IH]; intros H; [reflexivity|].
  apply Forall_cons in H as [Hf H]. destruct fs as [|g fs]; [exact Hf|].
  change (String.concat "," (f :: g :: fs))
    with (f ++ String JS.comma (String.concat "," (g :: fs)))%string.
  rewrite hasChar_app, Hf. cbn [hasChar orb]. rewrite Hc. now apply IH.
Qed.

Lemma splitLines_two a b :
  hasChar JS.LF a = false -> hasChar JS.CR a = false -> hasChar JS.LF b = false ->
  JS.splitLines (a ++ String JS.LF b) = [a; b].
Proof.
  intros Ha Hr Hb. unfold JS.splitLines.
  assert (H : forall cur, JS.splitLinesFrom cur (a ++ String JS.LF b)
                          = [(cur ++ a)%string; b]).
  { induction a as [|c a IH]; intros cur.
    - change ("" ++ String JS.LF b)%string with (String JS.LF b).
      cbn [JS.splitLinesFrom]. change (Ascii.eqb JS.LF JS.LF) with true. cbv iota.
      rewrite string_app_nil_r. f_equal. now apply (splitLinesFrom_no_LF b "").
    - cbn [hasChar] in Ha, Hr. apply orb_false_iff in Ha as [Ha1 Ha2].
      apply orb_false_iff in Hr as [Hr1 Hr2].
      rewrite string_app_cons. cbn [JS.splitLinesFrom]. rewrite Ha1, Hr1.
      destruct (a ++ String JS.LF b)%string eqn:E; [destruct a; discriminate|].
      cbn [andb]. rewrite (IH Ha2 Hr2). unfold JS.charString.
      now rewrite string_app_assoc. }
  apply H.
Qed.

Lemma headerStage_unquoted line0 pending :
  hasChar JS.dquote line0 = false ->
  headerStage (line0 :: pending) = (map cleanHeader (parseCSVLine line0), 1%nat).
Proof.
  intros Hq. unfold headerStage. rewrite (quoteScan_unquoted _ _ _ Hq).
  destruct pending; reflexivity.
Qed.

Lemma plainCell_true f :
  plainCell f = true ->
  JS.trim f = f /\ hasChar JS.comma f = false /\ hasChar JS.dquote f = false /\
  hasChar JS.LF f = false /\ hasChar JS.CR f = false.
Proof.
  unfold plainCell. rewrite !andb_true_iff, !negb_true_iff, String.eqb_eq. tauto.
Qed.

(** X25: round trip of a plain file.  Take header names and cells that are
    plain (trimmed, without comma, double quote or line break), the header
    names unchanged by header cleanup and none of them [__proto__], neither
    line blank, and at most one cell short of the header count: then the
    text made of the header line and the data line, each joined by commas,
    is parsed to one row, whose keys are the headers and which maps each
    header to the cell at its position (the last position of a repeated
    header), or to the empty string where the cell is missing. *)
Theorem parseCSV_plain_round_trip (hs vs : list string) :
  hs <> [] -> vs <> [] ->
  Forall (fun h => plainCell h = true /\ cleanHeader h = h /\ h <> "__proto__") hs ->
  Forall (fun v => plainCell v = true) vs ->
  nonBlank (String.concat "," hs) = true ->
  nonBlank (String.concat "," vs) = true ->
  accepts hs vs = true ->
  exists row,
    parseCSV (String.concat "," hs ++ String JS.LF (String.concat "," vs)) = [row] /\
    dom row = list_to_set hs /\
    forall i h, hs !! i = Some h -> (forall j, (i < j)%nat -> hs !! j <> Some h) ->
                row !! h = Some (default "" (vs !! i)).
Proof.
  intros Hh Hv Hhs' Hvs Bh Bv Hacc.
  assert (Hhs : Forall (fun h => plainCell h = true /\ cleanHeader h = h) hs).
  { eapply Forall_impl; [exact Hhs'|]. intros h (? & ? & _). auto. }
  assert (Hproto : "__proto__" ∉ hs).
  { intros Hin. rewrite Forall_forall in Hhs'. now destruct (Hhs' _ Hin) as (_ & _ & ?). }
  exists (buildRow hs vs). split; [|split].
  2:{ unfold buildRow. rewrite forEachHeader_dom. set_solver. }
  2:{ intros i h Hi Hlast. unfold buildRow.
      rewrite (forEachHeader_last vs ∅ 0 hs i h); [reflexivity| |exact Hi|exact Hlast].
      intros ->. apply Hproto. apply list_elem_of_lookup. eauto. }
  assert (Fh : Forall (fun f => JS.trim f = f /\ hasChar JS.comma f = false
                                /\ hasChar JS.dquote f = false) hs).
  { eapply Forall_impl; [exact Hhs|]. intros h [Hp _].
    apply plainCell_true in Hp. tauto. }
  assert (Fv : Forall (fun f => JS.trim f = f /\ hasChar JS.comma f = false
                                /\ hasChar JS.dquote f = false) vs).
  { eapply Forall_impl; [exact Hvs|]. intros v Hp. apply plainCell_true in Hp. tauto. }
  assert (Hno : forall c, Ascii.eqb JS.comma c = false ->
            (forall f, plainCell f = true -> hasChar c f = false) ->
            hasChar c (String.concat "," hs) = false /\
            hasChar c (String.concat "," vs) = false).
  { intros c Hc Hp. split; apply hasChar_concat; try exact Hc.
    - eapply Forall_impl; [exact Hhs|]. intros h [? _]. auto.
    - eapply Forall_impl; [exact Hvs|]. auto. }
  destruct (Hno JS.LF eq_refl) as [L1 L2]; [intros f Hf; apply plainCell_true in Hf; tauto|].
  destruct (Hno JS.CR eq_refl) as [R1 _]; [intros f Hf; apply plainCell_true in Hf; tauto|].
  destruct (Hno JS.dquote eq_refl) as [Q1 _]; [intros f Hf; apply plainCell_true in Hf; tauto|].
  unfold parseCSV. rewrite (splitLines_two _ _ L1 R1 L2).
  cbn [List.filter]. rewrite Bh, Bv. cbn [length]. change (Z.of_nat 2 <? 2) with false.
  cbv iota. rewrite (headerStage_unquoted _ _ Q1).
  unfold parseCSVLine at 1. rewrite (parseCSVLine_from_concat hs [] Hh Fh). cbn [app].
  assert (Hclean : map cleanHeader hs = hs).
  { clear -Hhs. induction Hhs as [|h hs [_ E] _ IH]; [reflexivity|]. cbn [map]. now rewrite E, IH. }
  rewrite Hclean. cbn [drop]. unfold dataRows. cbn [foldl]. unfold dataStep.
  unfold nonBlank in Bv. rewrite Bv. cbn [negb].
  fold (tokens (String.concat "," vs)). rewrite tokens_untrimmed.
  unfold parseCSVLine. rewrite (parseCSVLine_from_concat vs [] Hv Fv). cbn [app].
  now rewrite Hacc.
Qed.

Lemma parseCSV_plain_round_trip_witness :
  exists row,
    parseCSV (String.concat "," ["period"; "Country"; "SEASON"; "note"]
              ++ String JS.LF (String.concat "," ["2512"; "HK"; "24F"])) = [row] /\
    dom row = list_to_set ["period"; "Country"; "SEASON"; "note"] /\
    forall i h, ["period"; "Country"; "SEASON"; "note"] !! i = Some h ->
                (forall j, (i < j)%nat ->
                           ["period"; "Country"; "SEASON"; "note"] !! j <> Some h) ->
                row !! h = Some (default "" (["2512"; "HK"; "24F"] !! i)).
Proof.
  apply (parseCSV_plain_round_trip ["period"; "Country"; "SEASON"; "note"]
           ["2512"; "HK"; "24F"]);
    first [discriminate | reflexivity | (repeat constructor; discriminate)].
Defined.
